(** * RotatingCube3d: a shallow embedding of [main.cpp] and [Direct3dException]

    The program is a linear sequence of calls into two external libraries
    (SDL and Direct3D 11 / DXGI) followed by a polling loop.  The external
    world is a record [World] that fixes what every native call answers; the
    program is written in a small monad that threads the process-wide
    globals, records every native call in chronological order, and
    distinguishes normal return, a thrown [Direct3dException], undefined
    behaviour, and a run whose loop has consumed every poll the world
    supplies. *)

From Stdlib Require Import ZArith String Ascii List Bool Lia DecimalString QArith.
From Stdlib Require DecimalPos DecimalZ.
Import ListNotations.

Local Open Scope string_scope.
Local Open Scope Z_scope.

(** ** Status codes and their textual rendering *)

(** [HRESULT] is a typedef of [long], a signed 32-bit integer on Windows. *)
Definition HRESULT := Z.

Definition S_OK : HRESULT := 0.
Definition S_FALSE : HRESULT := 1.

(** The value a 32-bit pattern written in hexadecimal denotes once it is
    stored in a [long]: two's-complement wrap-around. *)
Definition HRESULT_of_bits (u : Z) : HRESULT :=
  (u + 2 ^ 31) mod 2 ^ 32 - 2 ^ 31.

Definition DXGI_ERROR_DEVICE_HUNG : HRESULT := HRESULT_of_bits 0x887A0004.
Definition E_OUTOFMEMORY : HRESULT := HRESULT_of_bits 0x8007000E.

(** The COM convention [SUCCEEDED(hr)]: a native call has produced its
    output object exactly when the status is non-negative. *)
Definition SUCCEEDED (hr : HRESULT) : bool := 0 <=? hr.

(** [std::to_string(long)]: signed decimal, as [%ld] prints it. *)
Definition to_string (z : Z) : string := NilZero.string_of_int (Z.to_int z).

(** ** C strings *)

Definition NUL : ascii := Ascii.zero.

(** [std::string::c_str()]: the characters followed by a terminator. *)
Definition c_str (s : string) : string := s ++ String NUL EmptyString.

(** What a consumer of a [const char*] reads: everything before the first
    terminator. *)
Fixpoint read_cstr (buf : string) : string :=
  match buf with
  | EmptyString => EmptyString
  | String c rest => if Ascii.eqb c NUL then EmptyString else String c (read_cstr rest)
  end.

Fixpoint drop (n : nat) (s : string) : string :=
  match n, s with
  | O, _ => s
  | S n', String _ rest => drop n' rest
  | S _, EmptyString => EmptyString
  end.

(** No terminator inside the string. *)
Fixpoint nul_free (s : string) : bool :=
  match s with
  | EmptyString => true
  | String c rest => negb (Ascii.eqb c NUL) && nul_free rest
  end.

(** [literal + n] where [literal] is a string literal and [n] an integer:
    pointer arithmetic on the literal's character array.  Converting the
    result to [std::string] reads from the offset up to the terminator, which
    is defined only when the offset lies inside the array's characters or on
    its terminator. *)
Definition literal_plus (literal : string) (n : Z) : option string :=
  if (0 <=? n) && (n <=? Z.of_nat (String.length literal))
  then Some (drop (Z.to_nat n) literal)
  else None.

(** [printf]-style formatting with one [%s] conversion. *)
Fixpoint printf_s (fmt arg : string) : string :=
  match fmt with
  | EmptyString => EmptyString
  | String c rest =>
      match rest with
      | String c' rest' =>
          if Ascii.eqb c "%" && Ascii.eqb c' "s"
          then arg ++ rest'
          else String c (printf_s rest arg)
      | EmptyString => String c EmptyString
      end
  end.

(** [Contains msg s]: [s] occurs in [msg] as a contiguous run of characters. *)
Definition Contains (msg s : string) : Prop :=
  exists before after, msg = before ++ s ++ after.

(** ** [Direct3dException] *)

Record Direct3dException := { m_errorMessage : string }.

(** The constructor copies its argument into the member. *)
Definition Direct3dException_ctor (errorMessage : string) : Direct3dException :=
  {| m_errorMessage := errorMessage |}.

(** [what()] returns [m_errorMessage.c_str()]: the buffer it points to. *)
Definition what (ex : Direct3dException) : string := c_str (m_errorMessage ex).

(** ** Native objects and descriptors *)

(** The COM objects this program can be handed by the native API. *)
Inductive ComObject :=
| TheDevice | TheImmediateContext | TheDxgiDevice | TheAdapter | TheFactory
| TheSwapChain | BackBufferTexture | BackBufferView
| DepthStencilTexture | DepthStencilView.

(** [ComPtr<T>]: an owning pointer that is either null or holds an object. *)
Definition ComPtr := option ComObject.

(** The window handle read out of [SDL_SysWMinfo].  The structure is a local
    without initializer, so the field is indeterminate unless the platform
    query filled it in. *)
Inductive HWND := WindowHandle (h : Z) | IndeterminateHandle.

Inductive SDL_Window := Window (id : Z).

Record SDL_Event := { type : Z }.

Inductive DXGI_FORMAT := DXGI_FORMAT_R8G8B8A8_UNORM | DXGI_FORMAT_D24_UNORM_S8_UINT.
Inductive D3D_DRIVER_TYPE := D3D_DRIVER_TYPE_HARDWARE.
Inductive DXGI_MODE_SCANLINE_ORDER := DXGI_MODE_SCANLINE_ORDER_UNSPECIFIED.
Inductive DXGI_MODE_SCALING := DXGI_MODE_SCALING_UNSPECIFIED.
Inductive DXGI_SWAP_EFFECT := DXGI_SWAP_EFFECT_DISCARD.
Inductive DXGI_USAGE := DXGI_USAGE_RENDER_TARGET_OUTPUT.
Inductive D3D11_USAGE := D3D11_USAGE_DEFAULT.
Inductive D3D11_BIND_FLAG := D3D11_BIND_DEPTH_STENCIL.
Inductive IID := IID_IDXGIAdapter | IID_IDXGIFactory | IID_ID3D11Texture2D.
Inductive XMVECTORF32 := CornflowerBlue.

(** Flag and enumerator values of the SDL and Direct3D headers. *)
Definition SDL_INIT_AUDIO : Z := 0x10.
Definition SDL_INIT_VIDEO : Z := 0x20.
Definition SDL_INIT_EVENTS : Z := 0x4000.
Definition SDL_WINDOWPOS_CENTERED : Z := 0x2FFF0000.
Definition SDL_QUIT : Z := 0x100.
Definition D3D11_CREATE_DEVICE_SINGLETHREADED : Z := 0x1.
Definition D3D11_CREATE_DEVICE_DEBUG : Z := 0x2.
Definition D3D11_SDK_VERSION : Z := 7.
Definition D3D11_CLEAR_DEPTH : Z := 0x1.
Definition D3D11_CLEAR_STENCIL : Z := 0x2.

Record DXGI_RATIONAL := { Numerator : Z; Denominator : Z }.

Record DXGI_SAMPLE_DESC := { Count : Z; Quality : Z }.

Record DXGI_MODE_DESC := {
  BufferWidth : Z;
  BufferHeight : Z;
  RefreshRate : DXGI_RATIONAL;
  BufferFormat : DXGI_FORMAT;
  ScanlineOrdering : DXGI_MODE_SCANLINE_ORDER;
  Scaling : DXGI_MODE_SCALING
}.

Record DXGI_SWAP_CHAIN_DESC := {
  BufferDesc : DXGI_MODE_DESC;
  SwapSampleDesc : DXGI_SAMPLE_DESC;
  BufferUsage : DXGI_USAGE;
  BufferCount : Z;
  OutputWindow : HWND;
  Windowed : bool;
  SwapEffect : DXGI_SWAP_EFFECT;
  Flags : Z
}.

Record D3D11_TEXTURE2D_DESC := {
  Width : Z;
  Height : Z;
  MipLevels : Z;
  ArraySize : Z;
  Format : DXGI_FORMAT;
  SampleDesc : DXGI_SAMPLE_DESC;
  Usage : D3D11_USAGE;
  BindFlags : D3D11_BIND_FLAG;
  CPUAccessFlags : Z;
  MiscFlags : Z
}.

(** The viewport's fields are [float]s; every value the program stores in
    them is an integer, exactly representable, and is kept as a rational. *)
Record D3D11_VIEWPORT := {
  TopLeftX : Q;
  TopLeftY : Q;
  ViewportWidth : Q;
  ViewportHeight : Q;
  MinDepth : Q;
  MaxDepth : Q
}.

(** ** Native calls *)

Inductive Call :=
| Call_SDL_Init (flags : Z)
| Call_SDL_Log (line : string)
| Call_SDL_GetError
| Call_SDL_CreateWindow (title : string) (x y w h flags : Z)
| Call_SDL_GetWindowWMInfo (window : SDL_Window)
| Call_SDL_PollEvent
| Call_SDL_Quit
| Call_D3D11CreateDevice (adapter : ComPtr) (driver : D3D_DRIVER_TYPE)
    (software : ComPtr) (flags featureLevels numLevels sdk : Z)
| Call_As_IDXGIDevice (self : ComObject)
| Call_GetParent (self : ComObject) (iid : IID)
| Call_CreateSwapChain (self : ComObject) (device : ComPtr) (sd : DXGI_SWAP_CHAIN_DESC)
| Call_GetBuffer (self : ComObject) (index : Z) (iid : IID)
| Call_CreateRenderTargetView (self : ComObject) (resource : ComPtr)
| Call_CreateTexture2D (self : ComObject) (desc : D3D11_TEXTURE2D_DESC)
| Call_CreateDepthStencilView (self : ComObject) (resource : ComPtr)
| Call_OMSetRenderTargets (self : ComObject) (numViews : Z)
    (views : list ComPtr) (depthStencil : ComPtr)
| Call_RSSetViewports (self : ComObject) (numViewports : Z)
    (viewports : list D3D11_VIEWPORT)
| Call_ClearRenderTargetView (self : ComObject) (view : ComPtr) (color : XMVECTORF32)
| Call_ClearDepthStencilView (self : ComObject) (view : ComPtr)
    (clearFlags : Z) (depth : Q) (stencil : Z)
| Call_Present (self : ComObject) (syncInterval flags : Z).

(** What the outside world answers to each native call of one run. *)
Record World := {
  SDL_Init_result : Z;
  SDL_GetError_text : string;
  SDL_CreateWindow_result : option SDL_Window;
  SDL_GetWindowWMInfo_result : bool;
  native_window : Z;
  D3D11CreateDevice_result : HRESULT;
  As_IDXGIDevice_result : HRESULT;
  GetParent_IDXGIAdapter_result : HRESULT;
  GetParent_IDXGIFactory_result : HRESULT;
  CreateSwapChain_result : HRESULT;
  GetBuffer_result : HRESULT;
  CreateRenderTargetView_result : HRESULT;
  CreateTexture2D_result : HRESULT;
  CreateDepthStencilView_result : HRESULT;
  (** successive answers of [SDL_PollEvent]: [None] when it returns 0 *)
  polls : list (option SDL_Event)
}.

(** ** Process state *)

(** The five global [ComPtr]s of [main.cpp], the part of the immediate
    context's pipeline state that the program sets, and the record of native
    calls made so far (oldest first). *)
Record Machine := {
  direct3dSwapChain : ComPtr;
  direct3dDevice : ComPtr;
  direct3dDeviceContext : ComPtr;
  mRenderTargetView : ComPtr;
  mDepthStencilView : ComPtr;
  om_render_targets : list ComPtr;
  om_depth_stencil : ComPtr;
  rs_viewports : list D3D11_VIEWPORT;
  calls : list Call
}.

Definition startup : Machine :=
  {| direct3dSwapChain := None; direct3dDevice := None;
     direct3dDeviceContext := None; mRenderTargetView := None;
     mDepthStencilView := None; om_render_targets := [];
     om_depth_stencil := None; rs_viewports := []; calls := [] |}.

(** How a computation ends: it returns a value; a [Direct3dException] is
    propagating; its behaviour is undefined (a call through a null pointer, a
    read outside a string literal); or it is still inside the frame loop when
    the answers the world supplies to [SDL_PollEvent] are used up. *)
Inductive Outcome (A : Type) :=
| Normal (a : A)
| Thrown (ex : Direct3dException)
| Undefined
| Unfinished.

Arguments Normal {A} a.
Arguments Thrown {A} ex.
Arguments Undefined {A}.
Arguments Unfinished {A}.

Definition M (A : Type) : Type := Machine -> Outcome A * Machine.

Definition ret {A} (a : A) : M A := fun m => (Normal a, m).

Definition bind {A B} (c : M A) (k : A -> M B) : M B :=
  fun m =>
    match c m with
    | (Normal a, m') => k a m'
    | (Thrown ex, m') => (Thrown ex, m')
    | (Undefined, m') => (Undefined, m')
    | (Unfinished, m') => (Unfinished, m')
    end.

Definition throw {A} (ex : Direct3dException) : M A := fun m => (Thrown ex, m).

Definition undefined {A} : M A := fun m => (Undefined, m).

Definition unfinished {A} : M A := fun m => (Unfinished, m).

(** [try { body } catch (Direct3dException ex) { handler }] *)
Definition try_catch {A} (body : M A) (handler : Direct3dException -> M A) : M A :=
  fun m =>
    match body m with
    | (Thrown ex, m') => handler ex m'
    | other => other
    end.

Declare Scope cpp_scope.
Delimit Scope cpp_scope with cpp.
Notation "x <- c ;; k" := (bind c (fun x => k))
  (at level 61, c at next level, right associativity) : cpp_scope.
Notation "c ;; k" := (bind c (fun _ => k))
  (at level 61, right associativity) : cpp_scope.
Notation "' pat <- c ;; k" := (bind c (fun pat => k))
  (at level 61, pat pattern, c at next level, right associativity) : cpp_scope.
Local Open Scope cpp_scope.

(** [if (cond) statement;] where the statement does not produce a value. *)
Definition when (cond : bool) (statement : M unit) : M unit :=
  if cond then statement else ret tt.

(** [a != b] on integers. *)
Definition neq (a b : Z) : bool := negb (a =? b).

Definition get {A} (field : Machine -> A) : M A := fun m => (Normal (field m), m).

(** Adding native calls to the record, the globals untouched. *)
Definition record_calls (more : list Call) (m : Machine) : Machine :=
  {| direct3dSwapChain := direct3dSwapChain m;
     direct3dDevice := direct3dDevice m;
     direct3dDeviceContext := direct3dDeviceContext m;
     mRenderTargetView := mRenderTargetView m;
     mDepthStencilView := mDepthStencilView m;
     om_render_targets := om_render_targets m;
     om_depth_stencil := om_depth_stencil m;
     rs_viewports := rs_viewports m;
     calls := calls m ++ more |}.

Definition emit (c : Call) : M unit := fun m => (Normal tt, record_calls [c] m).

(** [p->method(...)]: calling through a null [ComPtr] is undefined. *)
Definition arrow (p : Machine -> ComPtr) : M ComObject :=
  fun m =>
    match p m with
    | Some obj => (Normal obj, m)
    | None => (Undefined, m)
    end.

Definition arrow_local (p : ComPtr) : M ComObject :=
  match p with
  | Some obj => ret obj
  | None => undefined
  end.

(** Writes through [GetAddressOf()] and the two binding calls: the state
    afterwards. *)
Definition set_device_and_context (device context : ComPtr) (m : Machine) : Machine :=
  {| direct3dSwapChain := direct3dSwapChain m;
     direct3dDevice := device;
     direct3dDeviceContext := context;
     mRenderTargetView := mRenderTargetView m;
     mDepthStencilView := mDepthStencilView m;
     om_render_targets := om_render_targets m;
     om_depth_stencil := om_depth_stencil m;
     rs_viewports := rs_viewports m;
     calls := calls m |}.

Definition set_direct3dSwapChain (p : ComPtr) (m : Machine) : Machine :=
  {| direct3dSwapChain := p;
     direct3dDevice := direct3dDevice m;
     direct3dDeviceContext := direct3dDeviceContext m;
     mRenderTargetView := mRenderTargetView m;
     mDepthStencilView := mDepthStencilView m;
     om_render_targets := om_render_targets m;
     om_depth_stencil := om_depth_stencil m;
     rs_viewports := rs_viewports m;
     calls := calls m |}.

Definition set_mRenderTargetView (p : ComPtr) (m : Machine) : Machine :=
  {| direct3dSwapChain := direct3dSwapChain m;
     direct3dDevice := direct3dDevice m;
     direct3dDeviceContext := direct3dDeviceContext m;
     mRenderTargetView := p;
     mDepthStencilView := mDepthStencilView m;
     om_render_targets := om_render_targets m;
     om_depth_stencil := om_depth_stencil m;
     rs_viewports := rs_viewports m;
     calls := calls m |}.

Definition set_mDepthStencilView (p : ComPtr) (m : Machine) : Machine :=
  {| direct3dSwapChain := direct3dSwapChain m;
     direct3dDevice := direct3dDevice m;
     direct3dDeviceContext := direct3dDeviceContext m;
     mRenderTargetView := mRenderTargetView m;
     mDepthStencilView := p;
     om_render_targets := om_render_targets m;
     om_depth_stencil := om_depth_stencil m;
     rs_viewports := rs_viewports m;
     calls := calls m |}.

Definition set_output_merger (views : list ComPtr) (depthStencil : ComPtr)
    (m : Machine) : Machine :=
  {| direct3dSwapChain := direct3dSwapChain m;
     direct3dDevice := direct3dDevice m;
     direct3dDeviceContext := direct3dDeviceContext m;
     mRenderTargetView := mRenderTargetView m;
     mDepthStencilView := mDepthStencilView m;
     om_render_targets := views;
     om_depth_stencil := depthStencil;
     rs_viewports := rs_viewports m;
     calls := calls m |}.

Definition set_viewports (viewports : list D3D11_VIEWPORT) (m : Machine) : Machine :=
  {| direct3dSwapChain := direct3dSwapChain m;
     direct3dDevice := direct3dDevice m;
     direct3dDeviceContext := direct3dDeviceContext m;
     mRenderTargetView := mRenderTargetView m;
     mDepthStencilView := mDepthStencilView m;
     om_render_targets := om_render_targets m;
     om_depth_stencil := om_depth_stencil m;
     rs_viewports := viewports;
     calls := calls m |}.

Definition store_device_and_context (device context : ComPtr) : M unit :=
  fun m => (Normal tt, set_device_and_context device context m).

Definition store_direct3dSwapChain (p : ComPtr) : M unit :=
  fun m => (Normal tt, set_direct3dSwapChain p m).

Definition store_mRenderTargetView (p : ComPtr) : M unit :=
  fun m => (Normal tt, set_mRenderTargetView p m).

Definition store_mDepthStencilView (p : ComPtr) : M unit :=
  fun m => (Normal tt, set_mDepthStencilView p m).

Definition bind_output_merger (views : list ComPtr) (depthStencil : ComPtr) : M unit :=
  fun m => (Normal tt, set_output_merger views depthStencil m).

Definition bind_viewports (viewports : list D3D11_VIEWPORT) : M unit :=
  fun m => (Normal tt, set_viewports viewports m).

(** The object a creating call hands back through its out-pointer. *)
Definition produced (hr : HRESULT) (obj : ComObject) : ComPtr :=
  if SUCCEEDED hr then Some obj else None.

(** ** The program *)

Section Program.

Variable world : World.

(** *** SDL entry points *)

Definition SDL_Init (flags : Z) : M Z :=
  emit (Call_SDL_Init flags) ;; ret (SDL_Init_result world).

Definition SDL_Log (line : string) : M unit := emit (Call_SDL_Log line).

Definition SDL_GetError : M string :=
  emit Call_SDL_GetError ;; ret (SDL_GetError_text world).

Definition SDL_CreateWindow (title : string) (x y w h flags : Z)
  : M (option SDL_Window) :=
  emit (Call_SDL_CreateWindow title x y w h flags) ;;
  ret (SDL_CreateWindow_result world).

(** Fills [info.win.window] when it succeeds and leaves the structure as it
    was when it fails; the result is the structure's field afterwards
    together with the [SDL_bool] the call returns. *)
Definition SDL_GetWindowWMInfo (window : SDL_Window) (before : HWND)
  : M (bool * HWND) :=
  emit (Call_SDL_GetWindowWMInfo window) ;;
  ret (SDL_GetWindowWMInfo_result world,
       if SDL_GetWindowWMInfo_result world
       then WindowHandle (native_window world)
       else before).

Definition SDL_Quit : M unit := emit Call_SDL_Quit.

(** *** Direct3D and DXGI entry points *)

Definition D3D11CreateDevice (adapter : ComPtr) (driver : D3D_DRIVER_TYPE)
    (software : ComPtr) (flags featureLevels numLevels sdk : Z) : M HRESULT :=
  emit (Call_D3D11CreateDevice adapter driver software flags featureLevels numLevels sdk) ;;
  let hr := D3D11CreateDevice_result world in
  store_device_and_context (produced hr TheDevice) (produced hr TheImmediateContext) ;;
  ret hr.

Definition As_IDXGIDevice (self : ComObject) : M (HRESULT * ComPtr) :=
  emit (Call_As_IDXGIDevice self) ;;
  let hr := As_IDXGIDevice_result world in
  ret (hr, produced hr TheDxgiDevice).

Definition IDXGIDevice_GetParent (self : ComObject) : M (HRESULT * ComPtr) :=
  emit (Call_GetParent self IID_IDXGIAdapter) ;;
  let hr := GetParent_IDXGIAdapter_result world in
  ret (hr, produced hr TheAdapter).

Definition IDXGIAdapter_GetParent (self : ComObject) : M (HRESULT * ComPtr) :=
  emit (Call_GetParent self IID_IDXGIFactory) ;;
  let hr := GetParent_IDXGIFactory_result world in
  ret (hr, produced hr TheFactory).

Definition CreateSwapChain (self : ComObject) (device : ComPtr)
    (sd : DXGI_SWAP_CHAIN_DESC) : M HRESULT :=
  emit (Call_CreateSwapChain self device sd) ;;
  let hr := CreateSwapChain_result world in
  store_direct3dSwapChain (produced hr TheSwapChain) ;;
  ret hr.

Definition GetBuffer (self : ComObject) (index : Z) : M (HRESULT * ComPtr) :=
  emit (Call_GetBuffer self index IID_ID3D11Texture2D) ;;
  let hr := GetBuffer_result world in
  ret (hr, produced hr BackBufferTexture).

Definition CreateRenderTargetView (self : ComObject) (resource : ComPtr) : M HRESULT :=
  emit (Call_CreateRenderTargetView self resource) ;;
  let hr := CreateRenderTargetView_result world in
  store_mRenderTargetView (produced hr BackBufferView) ;;
  ret hr.

Definition CreateTexture2D (self : ComObject) (desc : D3D11_TEXTURE2D_DESC)
  : M (HRESULT * ComPtr) :=
  emit (Call_CreateTexture2D self desc) ;;
  let hr := CreateTexture2D_result world in
  ret (hr, produced hr DepthStencilTexture).

Definition CreateDepthStencilView (self : ComObject) (resource : ComPtr) : M HRESULT :=
  emit (Call_CreateDepthStencilView self resource) ;;
  let hr := CreateDepthStencilView_result world in
  store_mDepthStencilView (produced hr DepthStencilView) ;;
  ret hr.

Definition OMSetRenderTargets (self : ComObject) (numViews : Z)
    (views : list ComPtr) (depthStencil : ComPtr) : M unit :=
  emit (Call_OMSetRenderTargets self numViews views depthStencil) ;;
  bind_output_merger (firstn (Z.to_nat numViews) views) depthStencil.

Definition RSSetViewports (self : ComObject) (numViewports : Z)
    (viewports : list D3D11_VIEWPORT) : M unit :=
  emit (Call_RSSetViewports self numViewports viewports) ;;
  bind_viewports (firstn (Z.to_nat numViewports) viewports).

Definition ClearRenderTargetView (self : ComObject) (view : ComPtr)
    (color : XMVECTORF32) : M unit :=
  emit (Call_ClearRenderTargetView self view color).

Definition ClearDepthStencilView (self : ComObject) (view : ComPtr)
    (clearFlags : Z) (depth : Q) (stencil : Z) : M unit :=
  emit (Call_ClearDepthStencilView self view clearFlags depth stencil).

Definition Present (self : ComObject) (syncInterval flags : Z) : M unit :=
  emit (Call_Present self syncInterval flags).

Definition SDL_PollEvent (answer : option SDL_Event) : M (option SDL_Event) :=
  emit Call_SDL_PollEvent ;; ret answer.

(** *** [main.cpp] *)

Definition InitializeDeviceAndDeviceContext : M unit :=
  SDL_Log "Initializing Direct3D Device and DeviceContext..." ;;
  deviceCreationResult <-
    D3D11CreateDevice None D3D_DRIVER_TYPE_HARDWARE None
      (Z.lor D3D11_CREATE_DEVICE_DEBUG D3D11_CREATE_DEVICE_SINGLETHREADED)
      0 0 D3D11_SDK_VERSION ;;
  when (neq deviceCreationResult S_OK)
    (let errorMessage :=
       ("Error initializing device or device context. Error code: "
          ++ to_string deviceCreationResult)%string in
     throw (Direct3dException_ctor errorMessage)).

Definition swap_chain_desc (windowHandle : HWND) : DXGI_SWAP_CHAIN_DESC :=
  {| BufferDesc :=
       {| BufferWidth := 0;
          BufferHeight := 0;
          RefreshRate := {| Numerator := 60; Denominator := 1 |};
          BufferFormat := DXGI_FORMAT_R8G8B8A8_UNORM;
          ScanlineOrdering := DXGI_MODE_SCANLINE_ORDER_UNSPECIFIED;
          Scaling := DXGI_MODE_SCALING_UNSPECIFIED |};
     SwapSampleDesc := {| Count := 1; Quality := 0 |};
     BufferUsage := DXGI_USAGE_RENDER_TARGET_OUTPUT;
     BufferCount := 1;
     OutputWindow := windowHandle;
     Windowed := true;
     SwapEffect := DXGI_SWAP_EFFECT_DISCARD;
     Flags := 0 |}.

Definition InitializeSwapChain (windowHandle : HWND) : M unit :=
  SDL_Log "Initializing Direct3D swapchain..." ;;
  let sd := swap_chain_desc windowHandle in
  device <- arrow direct3dDevice ;;
  '(dxgiDeviceCastResult, dxgiDevice) <- As_IDXGIDevice device ;;
  when (neq dxgiDeviceCastResult S_OK)
    (throw (Direct3dException_ctor
       ("Failed to retrive interface for IDXGIDevice. Error code: "
          ++ to_string dxgiDeviceCastResult)%string)) ;;
  dxgiDevice_ <- arrow_local dxgiDevice ;;
  '(idxgiAdapterRetrievalResult, dxgiAdapter) <- IDXGIDevice_GetParent dxgiDevice_ ;;
  when (neq idxgiAdapterRetrievalResult S_OK)
    (throw (Direct3dException_ctor
       ("Failed to retrieve parent IDXGIAdapter from IDXGIDevice. Error code: "
          ++ to_string idxgiAdapterRetrievalResult)%string)) ;;
  dxgiAdapter_ <- arrow_local dxgiAdapter ;;
  '(idxgiFactoryRetrievalResult, dxgiFactory) <- IDXGIAdapter_GetParent dxgiAdapter_ ;;
  when (neq idxgiFactoryRetrievalResult S_OK)
    (throw (Direct3dException_ctor
       ("Failed to retrieve parent IDXGIFactory from IDXGIFactory. Error code: "
          ++ to_string idxgiFactoryRetrievalResult)%string)) ;;
  dxgiFactory_ <- arrow_local dxgiFactory ;;
  device_raw <- get direct3dDevice ;;
  swapChainCreationResult <- CreateSwapChain dxgiFactory_ device_raw sd ;;
  when (neq swapChainCreationResult S_OK)
    (throw (Direct3dException_ctor
       ("Failed to create swapchain. Error code: "
          ++ to_string swapChainCreationResult)%string)).

Definition depthStencilDesc : D3D11_TEXTURE2D_DESC :=
  {| Width := 640;
     Height := 480;
     MipLevels := 1;
     ArraySize := 1;
     Format := DXGI_FORMAT_D24_UNORM_S8_UINT;
     SampleDesc := {| Count := 1; Quality := 0 |};
     Usage := D3D11_USAGE_DEFAULT;
     BindFlags := D3D11_BIND_DEPTH_STENCIL;
     CPUAccessFlags := 0;
     MiscFlags := 0 |}.

Definition InitializeBackBufferAndDepthStencilView : M unit :=
  swapChain <- arrow direct3dSwapChain ;;
  '(getSwapChainBufferResult, backBuffer) <- GetBuffer swapChain 0 ;;
  when (neq getSwapChainBufferResult S_OK)
    (throw (Direct3dException_ctor
       ("Failed to retrieve swapchain back buffer. Error Code"
          ++ to_string getSwapChainBufferResult)%string)) ;;
  device <- arrow direct3dDevice ;;
  createRenderTargetViewResult <- CreateRenderTargetView device backBuffer ;;
  when (neq createRenderTargetViewResult S_OK)
    (throw (Direct3dException_ctor
       ("Failed to create render target view. Error Code: "
          ++ to_string createRenderTargetViewResult)%string)) ;;
  device <- arrow direct3dDevice ;;
  '(texture2dCreationResult, mDepthStencilBuffer) <- CreateTexture2D device depthStencilDesc ;;
  when (neq texture2dCreationResult S_OK)
    (* a [const char*] plus a [long], not a string concatenation *)
    (match literal_plus
             "Failed to create 2D texture for depth stencil buffer. Error Code: "
             texture2dCreationResult with
     | Some errorMessage => throw (Direct3dException_ctor errorMessage)
     | None => undefined
     end) ;;
  device <- arrow direct3dDevice ;;
  depthStencilViewCreationResult <- CreateDepthStencilView device mDepthStencilBuffer ;;
  when (neq depthStencilViewCreationResult S_OK)
    (throw (Direct3dException_ctor
       ("Failed to create depth stencil view. Error Code: "
          ++ to_string depthStencilViewCreationResult)%string)) ;;
  context <- arrow direct3dDeviceContext ;;
  renderTargetView <- get mRenderTargetView ;;
  depthStencilView <- get mDepthStencilView ;;
  OMSetRenderTargets context 1 [renderTargetView] depthStencilView.

Definition vp : D3D11_VIEWPORT :=
  {| TopLeftX := 0 # 1;
     TopLeftY := 0 # 1;
     ViewportWidth := 800 # 1;
     ViewportHeight := 600 # 1;
     MinDepth := 0 # 1;
     MaxDepth := 1 # 1 |}.

Definition InitializeViewport : M unit :=
  context <- arrow direct3dDeviceContext ;;
  RSSetViewports context 1 [vp].

Definition InitializeDirect3d (windowHandle : HWND) : M unit :=
  InitializeDeviceAndDeviceContext ;;
  InitializeSwapChain windowHandle ;;
  InitializeBackBufferAndDepthStencilView ;;
  InitializeViewport.

(** The event handling of one iteration: the value of [quit] afterwards. *)
Definition handle_poll (quit : bool) (answer : option SDL_Event) : bool :=
  match answer with
  | Some e => if type e =? SDL_QUIT then true else quit
  | None => quit
  end.

(** The body of the [while] loop. *)
Definition frame (quit : bool) (answer : option SDL_Event) : M bool :=
  polled <- SDL_PollEvent answer ;;
  let quit := handle_poll quit polled in
  context <- arrow direct3dDeviceContext ;;
  renderTargetView <- get mRenderTargetView ;;
  ClearRenderTargetView context renderTargetView CornflowerBlue ;;
  context <- arrow direct3dDeviceContext ;;
  depthStencilView <- get mDepthStencilView ;;
  ClearDepthStencilView context depthStencilView
    (Z.lor D3D11_CLEAR_DEPTH D3D11_CLEAR_STENCIL) (1 # 1) 0 ;;
  swapChain <- arrow direct3dSwapChain ;;
  Present swapChain 0 0 ;;
  ret quit.

(** [while (!quit) { ... }], over the answers the event queue will give. *)
Fixpoint frame_loop (answers : list (option SDL_Event)) (quit : bool) : M unit :=
  if quit then ret tt
  else
    match answers with
    | [] => unfinished
    | answer :: later => quit' <- frame quit answer ;; frame_loop later quit'
    end.

Definition main : M Z :=
  initResult <- SDL_Init (Z.lor (Z.lor SDL_INIT_VIDEO SDL_INIT_EVENTS) SDL_INIT_AUDIO) ;;
  if neq initResult 0 then
    error <- SDL_GetError ;;
    SDL_Log (printf_s "Unable to initialize SDL: %s" error) ;;
    ret 1
  else
    SDL_Log "SDL initialized..." ;;
    SDL_Log "Initializing main window..." ;;
    mainWindow <-
      SDL_CreateWindow "Rotating Cube" SDL_WINDOWPOS_CENTERED SDL_WINDOWPOS_CENTERED
        640 480 0 ;;
    match mainWindow with
    | None =>
        error <- SDL_GetError ;;
        SDL_Log (printf_s "Unable to create main application window: %s" error) ;;
        ret 1
    | Some window =>
        SDL_Log "Main application window created..." ;;
        '(_, windowHandle) <- SDL_GetWindowWMInfo window IndeterminateHandle ;;
        returned <-
          try_catch
            (SDL_Log "Initializing Direct3D..." ;;
             InitializeDirect3d windowHandle ;;
             ret None)
            (fun ex =>
               SDL_Log (printf_s "An error occured initialization Direct3D: %s"
                          (read_cstr (what ex))) ;;
               ret (Some 1)) ;;
        match returned with
        | Some status => ret status
        | None =>
            frame_loop (polls world) false ;;
            SDL_Quit ;;
            ret 0
        end
    end.

End Program.

(** A run of the process from its start. *)
Definition run (world : World) : Outcome Z * Machine := main world startup.

Definition exit_status (world : World) : Outcome Z := fst (run world).

Definition trace (world : World) : list Call := calls (snd (run world)).

(** The frame loop seen as a machine with two states, read off [quit]. *)
Inductive LoopState := Running | Quit.

Definition loop_state (quit : bool) : LoopState := if quit then Quit else Running.

(** A computation only ever adds to the record of native calls. *)
Definition Appends {A} (c : M A) : Prop :=
  forall m, exists more, calls (snd (c m)) = (calls m ++ more)%list.

(** ** Observations on traces *)

Definition is_clear_render_target (c : Call) : bool :=
  match c with Call_ClearRenderTargetView _ _ _ => true | _ => false end.

Definition is_clear_depth_stencil (c : Call) : bool :=
  match c with Call_ClearDepthStencilView _ _ _ _ _ => true | _ => false end.

Definition is_present (c : Call) : bool :=
  match c with Call_Present _ _ _ => true | _ => false end.

Definition is_bind_output_merger (c : Call) : bool :=
  match c with Call_OMSetRenderTargets _ _ _ _ => true | _ => false end.

Definition is_get_parent (c : Call) : bool :=
  match c with Call_GetParent _ _ => true | _ => false end.

Definition count (p : Call -> bool) (tr : list Call) : nat := length (filter p tr).

(** The lines the process has logged, oldest first. *)
Fixpoint logged (tr : list Call) : list string :=
  match tr with
  | [] => []
  | Call_SDL_Log line :: rest => line :: logged rest
  | _ :: rest => logged rest
  end.

(** The views a clear call is aimed at are the ones held by the globals. *)
Definition clears_target (rtv dsv : ComPtr) (c : Call) : Prop :=
  match c with
  | Call_ClearRenderTargetView _ view _ => view = rtv
  | Call_ClearDepthStencilView _ view _ _ _ => view = dsv
  | _ => True
  end.

(** ** Worlds *)

Definition is_quit (answer : option SDL_Event) : bool :=
  match answer with
  | Some e => type e =? SDL_QUIT
  | None => false
  end.

(** SDL starts and hands out a window. *)
Definition platform_ready (world : World) (window : SDL_Window) : Prop :=
  SDL_Init_result world = 0 /\ SDL_CreateWindow_result world = Some window.

(** Every one of the nine checked Direct3D calls answers [S_OK]. *)
Definition direct3d_ready (world : World) : Prop :=
  D3D11CreateDevice_result world = S_OK /\
  As_IDXGIDevice_result world = S_OK /\
  GetParent_IDXGIAdapter_result world = S_OK /\
  GetParent_IDXGIFactory_result world = S_OK /\
  CreateSwapChain_result world = S_OK /\
  GetBuffer_result world = S_OK /\
  CreateRenderTargetView_result world = S_OK /\
  CreateTexture2D_result world = S_OK /\
  CreateDepthStencilView_result world = S_OK.

(** A world in which everything succeeds, for a given event queue and a
    given answer of the window-handle query. *)
Definition sunny (wm : bool) (answers : list (option SDL_Event)) : World :=
  {| SDL_Init_result := 0;
     SDL_GetError_text := "";
     SDL_CreateWindow_result := Some (Window 1);
     SDL_GetWindowWMInfo_result := wm;
     native_window := 4096;
     D3D11CreateDevice_result := S_OK;
     As_IDXGIDevice_result := S_OK;
     GetParent_IDXGIAdapter_result := S_OK;
     GetParent_IDXGIFactory_result := S_OK;
     CreateSwapChain_result := S_OK;
     GetBuffer_result := S_OK;
     CreateRenderTargetView_result := S_OK;
     CreateTexture2D_result := S_OK;
     CreateDepthStencilView_result := S_OK;
     polls := answers |}.

(** The same world, except for the answers of the four calls of the
    swap-chain initializer. *)
Definition with_swap_chain_results (a b c d : HRESULT) : World :=
  {| SDL_Init_result := 0;
     SDL_GetError_text := "";
     SDL_CreateWindow_result := Some (Window 1);
     SDL_GetWindowWMInfo_result := true;
     native_window := 4096;
     D3D11CreateDevice_result := S_OK;
     As_IDXGIDevice_result := a;
     GetParent_IDXGIAdapter_result := b;
     GetParent_IDXGIFactory_result := c;
     CreateSwapChain_result := d;
     GetBuffer_result := S_OK;
     CreateRenderTargetView_result := S_OK;
     CreateTexture2D_result := S_OK;
     CreateDepthStencilView_result := S_OK;
     polls := [] |}.

(** Device creation answers [hr]; nothing later is reached. *)
Definition device_creation_answers (hr : HRESULT) : World :=
  {| SDL_Init_result := 0;
     SDL_GetError_text := "";
     SDL_CreateWindow_result := Some (Window 1);
     SDL_GetWindowWMInfo_result := true;
     native_window := 4096;
     D3D11CreateDevice_result := hr;
     As_IDXGIDevice_result := S_OK;
     GetParent_IDXGIAdapter_result := S_OK;
     GetParent_IDXGIFactory_result := S_OK;
     CreateSwapChain_result := S_OK;
     GetBuffer_result := S_OK;
     CreateRenderTargetView_result := S_OK;
     CreateTexture2D_result := S_OK;
     CreateDepthStencilView_result := S_OK;
     polls := [] |}.

(** Everything succeeds up to the back-buffer initializer, whose four checked
    calls answer as given; the event queue holds one quit event. *)
Definition back_buffer_answers (buffer view texture depthView : HRESULT) : World :=
  {| SDL_Init_result := 0;
     SDL_GetError_text := "";
     SDL_CreateWindow_result := Some (Window 1);
     SDL_GetWindowWMInfo_result := true;
     native_window := 4096;
     D3D11CreateDevice_result := S_OK;
     As_IDXGIDevice_result := S_OK;
     GetParent_IDXGIAdapter_result := S_OK;
     GetParent_IDXGIFactory_result := S_OK;
     CreateSwapChain_result := S_OK;
     GetBuffer_result := buffer;
     CreateRenderTargetView_result := view;
     CreateTexture2D_result := texture;
     CreateDepthStencilView_result := depthView;
     polls := [Some {| type := SDL_QUIT |}] |}.

(** The globals once the device and the swap chain exist: the state in which
    the back-buffer initializer is entered. *)
Definition with_swap_chain : Machine :=
  {| direct3dSwapChain := Some TheSwapChain;
     direct3dDevice := Some TheDevice;
     direct3dDeviceContext := Some TheImmediateContext;
     mRenderTargetView := None;
     mDepthStencilView := None;
     om_render_targets := [];
     om_depth_stencil := None;
     rs_viewports := [];
     calls := [] |}.

(** The native calls of a start-up in which everything succeeds. *)
Definition startup_calls (window : SDL_Window) (windowHandle : HWND) : list Call :=
  [ Call_SDL_Init 0x4030;
    Call_SDL_Log "SDL initialized...";
    Call_SDL_Log "Initializing main window...";
    Call_SDL_CreateWindow "Rotating Cube" SDL_WINDOWPOS_CENTERED SDL_WINDOWPOS_CENTERED
      640 480 0;
    Call_SDL_Log "Main application window created...";
    Call_SDL_GetWindowWMInfo window;
    Call_SDL_Log "Initializing Direct3D...";
    Call_SDL_Log "Initializing Direct3D Device and DeviceContext...";
    Call_D3D11CreateDevice None D3D_DRIVER_TYPE_HARDWARE None 3 0 0 D3D11_SDK_VERSION;
    Call_SDL_Log "Initializing Direct3D swapchain...";
    Call_As_IDXGIDevice TheDevice;
    Call_GetParent TheDxgiDevice IID_IDXGIAdapter;
    Call_GetParent TheAdapter IID_IDXGIFactory;
    Call_CreateSwapChain TheFactory (Some TheDevice) (swap_chain_desc windowHandle);
    Call_GetBuffer TheSwapChain 0 IID_ID3D11Texture2D;
    Call_CreateRenderTargetView TheDevice (Some BackBufferTexture);
    Call_CreateTexture2D TheDevice depthStencilDesc;
    Call_CreateDepthStencilView TheDevice (Some DepthStencilTexture);
    Call_OMSetRenderTargets TheImmediateContext 1 [Some BackBufferView]
      (Some DepthStencilView);
    Call_RSSetViewports TheImmediateContext 1 [vp] ].

(** The process state when the frame loop is entered. *)
Definition initialized (window : SDL_Window) (windowHandle : HWND) : Machine :=
  {| direct3dSwapChain := Some TheSwapChain;
     direct3dDevice := Some TheDevice;
     direct3dDeviceContext := Some TheImmediateContext;
     mRenderTargetView := Some BackBufferView;
     mDepthStencilView := Some DepthStencilView;
     om_render_targets := [Some BackBufferView];
     om_depth_stencil := Some DepthStencilView;
     rs_viewports := [vp];
     calls := startup_calls window windowHandle |}.

(** The handle [main] passes on, by the answer of the window-handle query. *)
Definition handle_passed (world : World) : HWND :=
  if SDL_GetWindowWMInfo_result world
  then WindowHandle (native_window world)
  else IndeterminateHandle.

(** The native calls of one iteration of the frame loop. *)
Definition frame_calls : list Call :=
  [ Call_SDL_PollEvent;
    Call_ClearRenderTargetView TheImmediateContext (Some BackBufferView) CornflowerBlue;
    Call_ClearDepthStencilView TheImmediateContext (Some DepthStencilView) 3 (1 # 1) 0;
    Call_Present TheSwapChain 0 0 ].


(** The native calls of [n] iterations of the frame loop. *)
Definition frames (n : nat) : list Call := concat (repeat frame_calls n).

(** The globals the frame loop goes through are all in place. *)
Definition LoopReady (m : Machine) : Prop :=
  direct3dDeviceContext m = Some TheImmediateContext /\
  direct3dSwapChain m = Some TheSwapChain /\
  mRenderTargetView m = Some BackBufferView /\
  mDepthStencilView m = Some DepthStencilView.

(** The output-merger stage has exactly the program's two views bound. *)
Definition OutputBound (m : Machine) : Prop :=
  om_render_targets m = [Some BackBufferView] /\
  om_depth_stencil m = Some DepthStencilView.

(** Whatever else a computation does, it first makes the calls [first]. *)
Definition Starts {A} (c : M A) (first : list Call) : Prop :=
  forall m, exists more, calls (snd (c m)) = (calls m ++ first ++ more)%list.

(** A computation that returns [a] after making exactly the call [call]. *)
Definition Makes {A} (c : M A) (a : A) (call : Call) : Prop :=
  forall m, exists m', c m = (Normal a, m') /\ calls m' = (calls m ++ [call])%list.

(** The process state in which [InitializeDirect3d] is entered. *)
Definition entering_direct3d (window : SDL_Window) : Machine :=
  record_calls
    [ Call_SDL_Init 0x4030;
      Call_SDL_Log "SDL initialized...";
      Call_SDL_Log "Initializing main window...";
      Call_SDL_CreateWindow "Rotating Cube" SDL_WINDOWPOS_CENTERED SDL_WINDOWPOS_CENTERED
        640 480 0;
      Call_SDL_Log "Main application window created...";
      Call_SDL_GetWindowWMInfo window;
      Call_SDL_Log "Initializing Direct3D..." ]
    startup.

(** The line the handler in [main] logs for an exception with message [msg]. *)
Definition error_line (msg : string) : string :=
  ("An error occured initialization Direct3D: " ++ msg)%string.

(** ** Further observations *)

Definition is_sdl_quit (c : Call) : bool :=
  match c with Call_SDL_Quit => true | _ => false end.

Definition is_poll (c : Call) : bool :=
  match c with Call_SDL_PollEvent => true | _ => false end.

Definition is_set_viewports (c : Call) : bool :=
  match c with Call_RSSetViewports _ _ _ => true | _ => false end.

Definition is_create_window (c : Call) : bool :=
  match c with Call_SDL_CreateWindow _ _ _ _ _ _ => true | _ => false end.

(** A call into Direct3D or DXGI, as opposed to SDL. *)
Definition is_direct3d (c : Call) : bool :=
  match c with
  | Call_SDL_Init _ | Call_SDL_Log _ | Call_SDL_GetError
  | Call_SDL_CreateWindow _ _ _ _ _ _ | Call_SDL_GetWindowWMInfo _
  | Call_SDL_PollEvent | Call_SDL_Quit => false
  | _ => true
  end.

(** The nine status checks of [InitializeDirect3d], in program order. *)
Inductive Check :=
| CheckCreateDevice
| CheckQueryDxgiDevice
| CheckGetAdapter
| CheckGetFactory
| CheckCreateSwapChain
| CheckGetBuffer
| CheckCreateRenderTargetView
| CheckCreateDepthTexture
| CheckCreateDepthStencilView.

(** The status each check looks at. *)
Definition status_of (world : World) (c : Check) : HRESULT :=
  match c with
  | CheckCreateDevice => D3D11CreateDevice_result world
  | CheckQueryDxgiDevice => As_IDXGIDevice_result world
  | CheckGetAdapter => GetParent_IDXGIAdapter_result world
  | CheckGetFactory => GetParent_IDXGIFactory_result world
  | CheckCreateSwapChain => CreateSwapChain_result world
  | CheckGetBuffer => GetBuffer_result world
  | CheckCreateRenderTargetView => CreateRenderTargetView_result world
  | CheckCreateDepthTexture => CreateTexture2D_result world
  | CheckCreateDepthStencilView => CreateDepthStencilView_result world
  end.

Definition checks : list Check :=
  [ CheckCreateDevice; CheckQueryDxgiDevice; CheckGetAdapter; CheckGetFactory;
    CheckCreateSwapChain; CheckGetBuffer; CheckCreateRenderTargetView;
    CheckCreateDepthTexture; CheckCreateDepthStencilView ].

(** The first check, in program order, whose status is not [S_OK]. *)
Definition first_failure (world : World) : option Check :=
  find (fun c => neq (status_of world c) S_OK) checks.

(** The string literal in the throw expression of each check. *)
Definition literal_of (c : Check) : string :=
  match c with
  | CheckCreateDevice => "Error initializing device or device context. Error code: "
  | CheckQueryDxgiDevice => "Failed to retrive interface for IDXGIDevice. Error code: "
  | CheckGetAdapter =>
      "Failed to retrieve parent IDXGIAdapter from IDXGIDevice. Error code: "
  | CheckGetFactory =>
      "Failed to retrieve parent IDXGIFactory from IDXGIFactory. Error code: "
  | CheckCreateSwapChain => "Failed to create swapchain. Error code: "
  | CheckGetBuffer => "Failed to retrieve swapchain back buffer. Error Code"
  | CheckCreateRenderTargetView => "Failed to create render target view. Error Code: "
  | CheckCreateDepthTexture =>
      "Failed to create 2D texture for depth stencil buffer. Error Code: "
  | CheckCreateDepthStencilView => "Failed to create depth stencil view. Error Code: "
  end.

(** The depth-texture check is the first to fail and its status is no offset
    into the check's literal. *)
Definition texture_offset_undefined (world : World) : Prop :=
  first_failure world = Some CheckCreateDepthTexture /\
  literal_plus (literal_of CheckCreateDepthTexture) (CreateTexture2D_result world) = None.

(** A world in which everything succeeds except that the check [c] sees the
    status [hr]. *)
Definition failing_at (c : Check) (hr : HRESULT) : World :=
  let answer (c' : Check) : HRESULT :=
    match c, c' with
    | CheckCreateDevice, CheckCreateDevice
    | CheckQueryDxgiDevice, CheckQueryDxgiDevice
    | CheckGetAdapter, CheckGetAdapter
    | CheckGetFactory, CheckGetFactory
    | CheckCreateSwapChain, CheckCreateSwapChain
    | CheckGetBuffer, CheckGetBuffer
    | CheckCreateRenderTargetView, CheckCreateRenderTargetView
    | CheckCreateDepthTexture, CheckCreateDepthTexture
    | CheckCreateDepthStencilView, CheckCreateDepthStencilView => hr
    | _, _ => S_OK
    end in
  {| SDL_Init_result := 0;
     SDL_GetError_text := "";
     SDL_CreateWindow_result := Some (Window 1);
     SDL_GetWindowWMInfo_result := true;
     native_window := 4096;
     D3D11CreateDevice_result := answer CheckCreateDevice;
     As_IDXGIDevice_result := answer CheckQueryDxgiDevice;
     GetParent_IDXGIAdapter_result := answer CheckGetAdapter;
     GetParent_IDXGIFactory_result := answer CheckGetFactory;
     CreateSwapChain_result := answer CheckCreateSwapChain;
     GetBuffer_result := answer CheckGetBuffer;
     CreateRenderTargetView_result := answer CheckCreateRenderTargetView;
     CreateTexture2D_result := answer CheckCreateDepthTexture;
     CreateDepthStencilView_result := answer CheckCreateDepthStencilView;
     polls := [Some {| type := SDL_QUIT |}] |}.

(** SDL does not start, or starts and hands out no window. *)
Definition without_platform (init : Z) (error : string) : World :=
  {| SDL_Init_result := init;
     SDL_GetError_text := error;
     SDL_CreateWindow_result := None;
     SDL_GetWindowWMInfo_result := false;
     native_window := 0;
     D3D11CreateDevice_result := S_OK;
     As_IDXGIDevice_result := S_OK;
     GetParent_IDXGIAdapter_result := S_OK;
     GetParent_IDXGIFactory_result := S_OK;
     CreateSwapChain_result := S_OK;
     GetBuffer_result := S_OK;
     CreateRenderTargetView_result := S_OK;
     CreateTexture2D_result := S_OK;
     CreateDepthStencilView_result := S_OK;
     polls := [] |}.


(** A call of the frame loop: a poll, a clear or a present. *)
Definition is_frame_call (c : Call) : bool :=
  is_poll c || is_clear_render_target c || is_clear_depth_stencil c || is_present c.

(** A call that binds pipeline state. *)
Definition is_binding (c : Call) : bool :=
  is_bind_output_merger c || is_set_viewports c.

(** No view is bound to the output merger and no viewport is set. *)
Definition NothingBound (m : Machine) : Prop :=
  om_render_targets m = [] /\ om_depth_stencil m = None /\ rs_viewports m = [].

(** Two strings differ at a position that both of them have. *)
Fixpoint diverge (a b : string) : bool :=
  match a, b with
  | String x a', String y b' => if Ascii.eqb x y then diverge a' b' else true
  | _, _ => false
  end.
(** ** Basic facts *)

Local Open Scope list_scope.

Lemma neq_true (a b : Z) : a <> b -> neq a b = true.
Proof.
  intro H. unfold neq. destruct (Z.eqb_spec a b); [contradiction | reflexivity].
Qed.

Lemma neq_refl (a : Z) : neq a a = false.
Proof. unfold neq. now rewrite Z.eqb_refl. Qed.

Lemma append_empty_r (s : string) : (s ++ "")%string = s.
Proof. induction s as [| c s IH]; simpl; [reflexivity | now rewrite IH]. Qed.

Lemma nul_free_append (a b : string) :
  nul_free (a ++ b) = nul_free a && nul_free b.
Proof.
  induction a as [| c a IH]; simpl; [reflexivity |].
  rewrite IH. now rewrite andb_assoc.
Qed.

Lemma nul_free_digits (d : Decimal.uint) : nul_free (NilEmpty.string_of_uint d) = true.
Proof. induction d; simpl; auto. Qed.

Lemma nul_free_to_string (z : Z) : nul_free (to_string z) = true.
Proof.
  unfold to_string, NilZero.string_of_int, NilZero.string_of_uint.
  destruct (Z.to_int z) as [d | d]; destruct d; simpl; auto using nul_free_digits;
    try apply (nul_free_digits d).
Qed.

Lemma read_cstr_c_str (s : string) : nul_free s = true -> read_cstr (c_str s) = s.
Proof.
  unfold c_str. induction s as [| c s IH]; simpl; [reflexivity |].
  intro H. apply andb_prop in H. destruct H as [Hc Hs].
  destruct (Ascii.eqb c NUL); [discriminate |]. now rewrite IH.
Qed.

(** ** Stepping through a computation *)

Lemma bind_normal {A B} (c : M A) (k : A -> M B) (m m' : Machine) (a : A) :
  c m = (Normal a, m') -> bind c k m = k a m'.
Proof. intro H. unfold bind. now rewrite H. Qed.

(** ** Computations only add to the record of calls *)

Section Appending.

Context {A B : Type}.

Lemma Appends_ret (a : A) : Appends (ret a).
Proof. intro m. exists []. simpl. now rewrite app_nil_r. Qed.

Lemma Appends_throw (ex : Direct3dException) : Appends (@throw A ex).
Proof. intro m. exists []. simpl. now rewrite app_nil_r. Qed.

Lemma Appends_undefined : Appends (@undefined A).
Proof. intro m. exists []. simpl. now rewrite app_nil_r. Qed.

Lemma Appends_unfinished : Appends (@unfinished A).
Proof. intro m. exists []. simpl. now rewrite app_nil_r. Qed.

Lemma Appends_get (field : Machine -> A) : Appends (get field).
Proof. intro m. exists []. simpl. now rewrite app_nil_r. Qed.

Lemma Appends_bind (c : M A) (k : A -> M B) :
  Appends c -> (forall a, Appends (k a)) -> Appends (bind c k).
Proof.
  intros Hc Hk m. unfold bind.
  destruct (Hc m) as [more Hmore].
  destruct (c m) as [[a | ex | |] m1]; simpl in *; try (now exists more).
  destruct (Hk a m1) as [more' Hmore'].
  exists (more ++ more'). now rewrite Hmore', Hmore, app_assoc.
Qed.

Lemma Appends_try_catch (body : M A) (handler : Direct3dException -> M A) :
  Appends body -> (forall ex, Appends (handler ex)) -> Appends (try_catch body handler).
Proof.
  intros Hc Hk m. unfold try_catch.
  destruct (Hc m) as [more Hmore].
  destruct (body m) as [[a | ex | |] m1]; simpl in *; try (now exists more).
  destruct (Hk ex m1) as [more' Hmore'].
  exists (more ++ more'). now rewrite Hmore', Hmore, app_assoc.
Qed.

End Appending.

Lemma Appends_emit (c : Call) : Appends (emit c).
Proof. intro m. now exists [c]. Qed.

Lemma Appends_arrow (p : Machine -> ComPtr) : Appends (arrow p).
Proof.
  intro m. exists []. unfold arrow. destruct (p m); simpl; now rewrite app_nil_r.
Qed.

Lemma Appends_arrow_local (p : ComPtr) : Appends (arrow_local p).
Proof. destruct p; [apply Appends_ret | apply Appends_undefined]. Qed.

Lemma Appends_when (cond : bool) (statement : M unit) :
  Appends statement -> Appends (when cond statement).
Proof. intro H. destruct cond; [exact H | apply Appends_ret]. Qed.

Lemma Appends_store_device_and_context (d c : ComPtr) :
  Appends (store_device_and_context d c).
Proof. intro m. exists []. simpl. now rewrite app_nil_r. Qed.

Lemma Appends_store_direct3dSwapChain (p : ComPtr) : Appends (store_direct3dSwapChain p).
Proof. intro m. exists []. simpl. now rewrite app_nil_r. Qed.

Lemma Appends_store_mRenderTargetView (p : ComPtr) : Appends (store_mRenderTargetView p).
Proof. intro m. exists []. simpl. now rewrite app_nil_r. Qed.

Lemma Appends_store_mDepthStencilView (p : ComPtr) : Appends (store_mDepthStencilView p).
Proof. intro m. exists []. simpl. now rewrite app_nil_r. Qed.

Lemma Appends_bind_output_merger (views : list ComPtr) (dsv : ComPtr) :
  Appends (bind_output_merger views dsv).
Proof. intro m. exists []. simpl. now rewrite app_nil_r. Qed.

Lemma Appends_bind_viewports (viewports : list D3D11_VIEWPORT) :
  Appends (bind_viewports viewports).
Proof. intro m. exists []. simpl. now rewrite app_nil_r. Qed.

Create HintDb appends.

#[local] Hint Resolve Appends_ret Appends_throw Appends_undefined Appends_unfinished
  Appends_get Appends_emit Appends_arrow Appends_arrow_local
  Appends_store_device_and_context Appends_store_direct3dSwapChain
  Appends_store_mRenderTargetView Appends_store_mDepthStencilView
  Appends_bind_output_merger Appends_bind_viewports : appends.

(** Goes through a computation written with the monad's combinators. *)
Ltac appends :=
  repeat first
    [ solve [auto with appends]
    | apply Appends_bind; [| intro]
    | apply Appends_try_catch; [| intro]
    | apply Appends_when
    | match goal with
      | |- Appends (if ?b then _ else _) => destruct b
      | |- Appends (match ?x with _ => _ end) => destruct x
      end ].

Lemma Appends_InitializeDeviceAndDeviceContext (world : World) :
  Appends (InitializeDeviceAndDeviceContext world).
Proof.
  unfold InitializeDeviceAndDeviceContext, SDL_Log, D3D11CreateDevice. appends.
Qed.

Lemma Appends_InitializeSwapChain (world : World) (h : HWND) :
  Appends (InitializeSwapChain world h).
Proof.
  unfold InitializeSwapChain, SDL_Log, As_IDXGIDevice, IDXGIDevice_GetParent,
    IDXGIAdapter_GetParent, CreateSwapChain.
  appends.
Qed.

Lemma Appends_InitializeBackBufferAndDepthStencilView (world : World) :
  Appends (InitializeBackBufferAndDepthStencilView world).
Proof.
  unfold InitializeBackBufferAndDepthStencilView, GetBuffer, CreateRenderTargetView,
    CreateTexture2D, CreateDepthStencilView, OMSetRenderTargets.
  appends.
Qed.

Lemma Appends_InitializeViewport : Appends InitializeViewport.
Proof. unfold InitializeViewport, RSSetViewports. appends. Qed.

#[local] Hint Resolve Appends_InitializeDeviceAndDeviceContext Appends_InitializeSwapChain
  Appends_InitializeBackBufferAndDepthStencilView Appends_InitializeViewport : appends.

Lemma Appends_InitializeDirect3d (world : World) (h : HWND) :
  Appends (InitializeDirect3d world h).
Proof. unfold InitializeDirect3d. appends. Qed.

Lemma Appends_frame (quit : bool) (answer : option SDL_Event) :
  Appends (frame quit answer).
Proof.
  unfold frame, SDL_PollEvent, ClearRenderTargetView, ClearDepthStencilView, Present.
  appends.
Qed.

Lemma Appends_frame_loop (answers : list (option SDL_Event)) (quit : bool) :
  Appends (frame_loop answers quit).
Proof.
  revert quit. induction answers as [| a answers IH]; intros [|]; simpl;
    auto with appends.
  apply Appends_bind; [apply Appends_frame | intro; apply IH].
Qed.

#[local] Hint Resolve Appends_InitializeDirect3d Appends_frame_loop : appends.

(** ** The first calls of a computation *)

Lemma Starts_nil {A} (c : M A) : Appends c -> Starts c [].
Proof. intros H m. destruct (H m) as [more Hmore]. now exists more. Qed.

Lemma Starts_step {A B} (c : M A) (k : A -> M B) (a : A) (call : Call)
    (first : list Call) :
  Makes c a call -> Starts (k a) first -> Starts (bind c k) (call :: first).
Proof.
  intros Hc Hk m. unfold bind.
  destruct (Hc m) as (m' & Hrun & Hcalls). rewrite Hrun.
  destruct (Hk m') as [more Hmore]. exists more.
  rewrite Hmore, Hcalls, <- app_assoc. reflexivity.
Qed.

Lemma Starts_bind {A B} (c : M A) (k : A -> M B) (first : list Call) :
  Starts c first -> (forall a, Appends (k a)) -> Starts (bind c k) first.
Proof.
  intros Hc Hk m. unfold bind.
  destruct (Hc m) as [more Hmore].
  destruct (c m) as [[a | ex | |] m1]; simpl in *; try (now exists more).
  destruct (Hk a m1) as [more' Hmore'].
  exists (more ++ more'). rewrite Hmore', Hmore, <- !app_assoc. reflexivity.
Qed.

Lemma Starts_try_catch {A} (body : M A) (handler : Direct3dException -> M A)
    (first : list Call) :
  Starts body first -> (forall ex, Appends (handler ex)) ->
  Starts (try_catch body handler) first.
Proof.
  intros Hc Hk m. unfold try_catch.
  destruct (Hc m) as [more Hmore].
  destruct (body m) as [[a | ex | |] m1]; simpl in *; try (now exists more).
  destruct (Hk ex m1) as [more' Hmore'].
  exists (more ++ more'). rewrite Hmore', Hmore, <- !app_assoc. reflexivity.
Qed.

Lemma Makes_emit (c : Call) : Makes (emit c) tt c.
Proof. intro m. eexists. split; reflexivity. Qed.

(** ** A start-up in which everything succeeds *)

Lemma run_initialized (world : World) (window : SDL_Window) :
  platform_ready world window ->
  direct3d_ready world ->
  run world =
  (frame_loop (polls world) false ;; SDL_Quit ;; ret 0)
    (initialized window (handle_passed world)).
Proof.
  destruct world; unfold platform_ready, direct3d_ready, handle_passed; cbn.
  intros [Hinit Hwin] (H1 & H2 & H3 & H4 & H5 & H6 & H7 & H8 & H9).
  subst. reflexivity.
Qed.

(** ** The frame loop *)

Lemma record_calls_twice (a b : list Call) (m : Machine) :
  record_calls b (record_calls a m) = record_calls (a ++ b) m.
Proof. unfold record_calls; simpl. now rewrite app_assoc. Qed.

Lemma LoopReady_record_calls (more : list Call) (m : Machine) :
  LoopReady m -> LoopReady (record_calls more m).
Proof. unfold LoopReady; simpl; tauto. Qed.

Lemma LoopReady_initialized (window : SDL_Window) (h : HWND) :
  LoopReady (initialized window h).
Proof. repeat split. Qed.

Lemma frame_ready (quit : bool) (answer : option SDL_Event) (m : Machine) :
  LoopReady m ->
  frame quit answer m = (Normal (handle_poll quit answer), record_calls frame_calls m).
Proof.
  intros (Hctx & Hsc & Hrtv & Hdsv).
  destruct m; simpl in *; subst.
  unfold frame_calls. cbv [frame bind SDL_PollEvent arrow get emit ret
    ClearRenderTargetView ClearDepthStencilView Present record_calls]; simpl.
  rewrite <- !app_assoc. reflexivity.
Qed.

Lemma handle_poll_running (answer : option SDL_Event) :
  handle_poll false answer = is_quit answer.
Proof.
  destruct answer as [e |]; simpl; [| reflexivity].
  destruct (type e =? SDL_QUIT); reflexivity.
Qed.

Lemma frames_succ (n : nat) : frames (S n) = frame_calls ++ frames n.
Proof. reflexivity. Qed.

(** Once [quit] is set the loop condition fails: nothing more is polled. *)
Lemma frame_loop_left (answers : list (option SDL_Event)) (m : Machine) :
  frame_loop answers true m = (Normal tt, m).
Proof. destruct answers; reflexivity. Qed.

(** The loop leaves at the first quit event, having run one iteration for
    every poll up to and including it. *)
Lemma frame_loop_quits (before after : list (option SDL_Event))
    (answer : option SDL_Event) (m : Machine) :
  LoopReady m ->
  forallb (fun a => negb (is_quit a)) before = true ->
  is_quit answer = true ->
  frame_loop (before ++ answer :: after) false m =
  (Normal tt, record_calls (frames (S (length before))) m).
Proof.
  revert m. induction before as [| a before IH]; intros m Hm Hbefore Hquit.
  - simpl. unfold bind. rewrite frame_ready by assumption.
    rewrite handle_poll_running, Hquit, frame_loop_left.
    unfold frames; simpl. rewrite ?app_nil_r. reflexivity.
  - simpl in Hbefore. apply andb_prop in Hbefore. destruct Hbefore as [Ha Hbefore].
    apply negb_true_iff in Ha.
    cbn [app frame_loop]. unfold bind. rewrite frame_ready by assumption.
    rewrite handle_poll_running, Ha.
    rewrite IH by auto using LoopReady_record_calls.
    rewrite record_calls_twice. reflexivity.
Qed.

(** Without a quit event the loop is still going when the polls run out. *)
Lemma frame_loop_unfinished (answers : list (option SDL_Event)) (m : Machine) :
  LoopReady m ->
  forallb (fun a => negb (is_quit a)) answers = true ->
  frame_loop answers false m = (Unfinished, record_calls (frames (length answers)) m).
Proof.
  revert m. induction answers as [| a answers IH]; intros m Hm Hall.
  - simpl. unfold unfinished, record_calls, frames; simpl.
    rewrite app_nil_r. now destruct m.
  - simpl in Hall. apply andb_prop in Hall. destruct Hall as [Ha Hall].
    apply negb_true_iff in Ha.
    cbn [frame_loop]. unfold bind. rewrite frame_ready by assumption.
    rewrite handle_poll_running, Ha.
    rewrite IH by auto using LoopReady_record_calls.
    rewrite record_calls_twice. reflexivity.
Qed.

Lemma run_quits (world : World) (window : SDL_Window)
    (before after : list (option SDL_Event)) (answer : option SDL_Event) :
  platform_ready world window ->
  direct3d_ready world ->
  polls world = before ++ answer :: after ->
  forallb (fun a => negb (is_quit a)) before = true ->
  is_quit answer = true ->
  run world =
  (Normal 0,
   record_calls (frames (S (length before)) ++ [Call_SDL_Quit])
     (initialized window (handle_passed world))).
Proof.
  intros Hplatform Hd3d Hpolls Hbefore Hquit.
  rewrite (run_initialized world window Hplatform Hd3d), Hpolls.
  unfold bind.
  rewrite frame_loop_quits by auto using LoopReady_initialized.
  unfold SDL_Quit, emit, ret. now rewrite record_calls_twice.
Qed.

Lemma run_unfinished (world : World) (window : SDL_Window) :
  platform_ready world window ->
  direct3d_ready world ->
  forallb (fun a => negb (is_quit a)) (polls world) = true ->
  run world =
  (Unfinished,
   record_calls (frames (length (polls world)))
     (initialized window (handle_passed world))).
Proof.
  intros Hplatform Hd3d Hpolls.
  rewrite (run_initialized world window Hplatform Hd3d).
  unfold bind.
  now rewrite frame_loop_unfinished by auto using LoopReady_initialized.
Qed.

(** ** How every run begins *)

Ltac makes := intro; eexists; split; reflexivity.

Lemma main_starts_with_window (world : World) :
  SDL_Init_result world = 0 ->
  Starts (main world)
    [ Call_SDL_Init 0x4030;
      Call_SDL_Log "SDL initialized...";
      Call_SDL_Log "Initializing main window...";
      Call_SDL_CreateWindow "Rotating Cube" SDL_WINDOWPOS_CENTERED
        SDL_WINDOWPOS_CENTERED 640 480 0 ].
Proof.
  intro Hinit. unfold main.
  eapply Starts_step; [unfold SDL_Init; makes |].
  rewrite Hinit. cbn [neq Z.eqb negb].
  eapply Starts_step; [apply Makes_emit |].
  eapply Starts_step; [apply Makes_emit |].
  eapply Starts_step; [unfold SDL_CreateWindow; makes |].
  apply Starts_nil. unfold SDL_GetError, SDL_Log, SDL_GetWindowWMInfo, SDL_Quit.
  appends.
Qed.

Lemma InitializeDirect3d_starts (world : World) (h : HWND) :
  Starts (InitializeDirect3d world h)
    [ Call_SDL_Log "Initializing Direct3D Device and DeviceContext...";
      Call_D3D11CreateDevice None D3D_DRIVER_TYPE_HARDWARE None 3 0 0 D3D11_SDK_VERSION ].
Proof.
  unfold InitializeDirect3d.
  apply Starts_bind; [| intro; appends].
  unfold InitializeDeviceAndDeviceContext.
  eapply Starts_step; [apply Makes_emit |].
  eapply Starts_step; [unfold D3D11CreateDevice; makes |].
  apply Starts_nil. appends.
Qed.

(** With SDL up and a window made, the run goes on into Direct3D
    initialization whatever the window-handle query answers. *)
Lemma main_starts_direct3d (world : World) (window : SDL_Window) :
  platform_ready world window ->
  Starts (main world)
    [ Call_SDL_Init 0x4030;
      Call_SDL_Log "SDL initialized...";
      Call_SDL_Log "Initializing main window...";
      Call_SDL_CreateWindow "Rotating Cube" SDL_WINDOWPOS_CENTERED
        SDL_WINDOWPOS_CENTERED 640 480 0;
      Call_SDL_Log "Main application window created...";
      Call_SDL_GetWindowWMInfo window;
      Call_SDL_Log "Initializing Direct3D...";
      Call_SDL_Log "Initializing Direct3D Device and DeviceContext...";
      Call_D3D11CreateDevice None D3D_DRIVER_TYPE_HARDWARE None 3 0 0 D3D11_SDK_VERSION ].
Proof.
  intros [Hinit Hwindow]. unfold main.
  eapply Starts_step; [unfold SDL_Init; makes |].
  rewrite Hinit. cbn [neq Z.eqb negb].
  eapply Starts_step; [apply Makes_emit |].
  eapply Starts_step; [apply Makes_emit |].
  eapply Starts_step; [unfold SDL_CreateWindow; makes |].
  rewrite Hwindow.
  eapply Starts_step; [apply Makes_emit |].
  eapply Starts_step; [unfold SDL_GetWindowWMInfo; makes |].
  cbv beta iota.
  apply Starts_bind; [| intros [status |]; unfold SDL_Quit; appends].
  apply Starts_try_catch; [| intro; unfold SDL_Log; appends].
  eapply Starts_step; [apply Makes_emit |].
  apply Starts_bind; [| intro; appends].
  apply InitializeDirect3d_starts.
Qed.

Lemma polls_cases (answers : list (option SDL_Event)) :
  forallb (fun a => negb (is_quit a)) answers = true \/
  exists before answer after,
    answers = before ++ answer :: after /\
    forallb (fun a => negb (is_quit a)) before = true /\
    is_quit answer = true.
Proof.
  induction answers as [| a answers IH]; [now left |].
  destruct (is_quit a) eqn:Ha.
  - right. exists [], a, answers. auto.
  - destruct IH as [IH | (before & answer & after & -> & Hbefore & Hquit)].
    + left. simpl. now rewrite Ha.
    + right. exists (a :: before), answer, after. simpl. rewrite Ha. auto.
Qed.

(** With start-up through, a run either leaves the loop at a quit event and
    exits with 0, or is still in the loop; all it adds to the start-up calls
    are whole iterations and the final [SDL_Quit]. *)
Lemma run_ready_cases (world : World) (window : SDL_Window) :
  platform_ready world window ->
  direct3d_ready world ->
  exists n,
    run world =
      (Normal 0,
       record_calls (frames (S n) ++ [Call_SDL_Quit])
         (initialized window (handle_passed world))) \/
    run world =
      (Unfinished,
       record_calls (frames n) (initialized window (handle_passed world))).
Proof.
  intros Hplatform Hd3d.
  destruct (polls_cases (polls world))
    as [Hnone | (before & answer & after & Hpolls & Hbefore & Hquit)].
  - exists (length (polls world)). right. now apply run_unfinished.
  - exists (length before). left. now apply (run_quits world window before after answer).
Qed.

Lemma device_creation_failure (world : World) (m : Machine) :
  D3D11CreateDevice_result world <> S_OK ->
  exists m',
    InitializeDeviceAndDeviceContext world m =
      (Thrown (Direct3dException_ctor
                 ("Error initializing device or device context. Error code: "
                    ++ to_string (D3D11CreateDevice_result world))), m') /\
    calls m' =
      calls m ++
      [ Call_SDL_Log "Initializing Direct3D Device and DeviceContext...";
        Call_D3D11CreateDevice None D3D_DRIVER_TYPE_HARDWARE None 3 0 0
          D3D11_SDK_VERSION ].
Proof.
  intro Hhr. unfold InitializeDeviceAndDeviceContext, when.
  eexists. split.
  - cbv [bind SDL_Log D3D11CreateDevice emit ret store_device_and_context throw].
    cbv beta iota. rewrite (neq_true _ _ Hhr). reflexivity.
  - simpl. rewrite <- app_assoc. reflexivity.
Qed.

Lemma InitializeDirect3d_device_failure (world : World) (h : HWND) (m : Machine) :
  D3D11CreateDevice_result world <> S_OK ->
  exists m',
    InitializeDirect3d world h m =
      (Thrown (Direct3dException_ctor
                 ("Error initializing device or device context. Error code: "
                    ++ to_string (D3D11CreateDevice_result world))), m') /\
    calls m' =
      calls m ++
      [ Call_SDL_Log "Initializing Direct3D Device and DeviceContext...";
        Call_D3D11CreateDevice None D3D_DRIVER_TYPE_HARDWARE None 3 0 0
          D3D11_SDK_VERSION ].
Proof.
  intro Hhr. destruct (device_creation_failure world m Hhr) as (m' & Hrun & Hcalls).
  exists m'. split; [| exact Hcalls].
  unfold InitializeDirect3d, bind. now rewrite Hrun.
Qed.

(** ** What [main] does with the outcome of [InitializeDirect3d] *)

Ltac step := erewrite bind_normal; [| reflexivity]; cbv beta.

Lemma printf_error_line (msg : string) :
  printf_s "An error occured initialization Direct3D: %s" msg = error_line msg.
Proof. unfold error_line. simpl. now rewrite append_empty_r. Qed.

(** The exception is caught in [main], its message is logged, and the
    process returns 1. *)
Lemma run_catches (world : World) (window : SDL_Window) (msg : string) (m' : Machine) :
  platform_ready world window ->
  InitializeDirect3d world (handle_passed world) (entering_direct3d window) =
    (Thrown (Direct3dException_ctor msg), m') ->
  nul_free msg = true ->
  run world = (Normal 1, record_calls [Call_SDL_Log (error_line msg)] m').
Proof.
  intros [Hinit Hwindow] Hthrown Hmsg.
  unfold run, main.
  step. rewrite Hinit. cbn [neq Z.eqb negb].
  step. step. step. rewrite Hwindow. step. step. cbv beta iota.
  unfold bind at 1, try_catch.
  erewrite bind_normal; [| reflexivity]; cbv beta.
  unfold bind at 1.
  change (InitializeDirect3d world _ _)
    with (InitializeDirect3d world (handle_passed world) (entering_direct3d window)).
  rewrite Hthrown.
  unfold bind, SDL_Log, emit, ret, what.
  cbn [m_errorMessage Direct3dException_ctor].
  now rewrite read_cstr_c_str, printf_error_line.
Qed.

(** Undefined behaviour inside the initialization is undefined behaviour of
    the process: no handler runs. *)
Lemma run_undefined (world : World) (window : SDL_Window) (m' : Machine) :
  platform_ready world window ->
  InitializeDirect3d world (handle_passed world) (entering_direct3d window) =
    (Undefined, m') ->
  run world = (Undefined, m').
Proof.
  intros [Hinit Hwindow] Hundefined.
  unfold run, main.
  step. rewrite Hinit. cbn [neq Z.eqb negb].
  step. step. step. rewrite Hwindow. step. step. cbv beta iota.
  unfold bind at 1, try_catch.
  erewrite bind_normal; [| reflexivity]; cbv beta.
  unfold bind at 1.
  change (InitializeDirect3d world _ _)
    with (InitializeDirect3d world (handle_passed world) (entering_direct3d window)).
  now rewrite Hundefined.
Qed.

(** ** The output-merger binding *)

Lemma count_app (p : Call -> bool) (a b : list Call) :
  count p (a ++ b) = (count p a + count p b)%nat.
Proof. unfold count. now rewrite filter_app, length_app. Qed.

Lemma frames_no_binding (n : nat) : count is_bind_output_merger (frames n) = 0%nat.
Proof.
  induction n as [| n IH]; [reflexivity |].
  rewrite frames_succ, count_app, IH. reflexivity.
Qed.

Lemma frames_clear_bound_views (n : nat) :
  Forall (clears_target (Some BackBufferView) (Some DepthStencilView)) (frames n).
Proof.
  induction n as [| n IH]; [constructor |].
  rewrite frames_succ. apply Forall_app. split; [| exact IH].
  repeat constructor.
Qed.

Lemma startup_clears_nothing (window : SDL_Window) (h : HWND) :
  Forall (clears_target (Some BackBufferView) (Some DepthStencilView))
    (startup_calls window h).
Proof. repeat constructor. Qed.

Lemma frame_keeps_output_merger (quit : bool) (answer : option SDL_Event) (m : Machine) :
  OutputBound m -> OutputBound (snd (frame quit answer m)).
Proof.
  unfold OutputBound.
  destruct m as [sc dev ctx rtv dsv views depth viewports made]. simpl.
  intro H. destruct ctx, sc; exact H.
Qed.

Lemma frame_loop_keeps_output_merger (answers : list (option SDL_Event)) (quit : bool)
    (m : Machine) :
  OutputBound m -> OutputBound (snd (frame_loop answers quit m)).
Proof.
  revert quit m. induction answers as [| a answers IH]; intros [|] m Hm;
    try exact Hm.
  cbn [frame_loop]. unfold bind.
  assert (Hframe := frame_keeps_output_merger false a m Hm).
  destruct (frame false a m) as [[q | ex | |] m1]; simpl in *; auto.
Qed.

(** ** Runs whose start-up succeeds *)

Lemma trace_initialized (world : World) (window : SDL_Window) :
  platform_ready world window ->
  direct3d_ready world ->
  exists more,
    trace world = startup_calls window (handle_passed world) ++ more /\
    rs_viewports (snd (run world)) = [vp] /\
    (exit_status world = Normal 0 \/ exit_status world = Unfinished).
Proof.
  intros Hplatform Hd3d.
  destruct (run_ready_cases world window Hplatform Hd3d) as [n [Hrun | Hrun]];
    unfold trace, exit_status; rewrite Hrun; eexists; cbn [fst snd calls record_calls
      initialized rs_viewports]; auto.
Qed.

(** ** Substrings *)

Lemma substring_prefix (s after : string) :
  substring 0 (String.length s) (s ++ after) = s.
Proof. induction s as [| c s IH]; simpl; [now destruct after | now rewrite IH]. Qed.

Lemma substring_middle (before s after : string) :
  substring (String.length before) (String.length s) (before ++ s ++ after) = s.
Proof.
  induction before as [| c before IH]; simpl; [apply substring_prefix | exact IH].
Qed.

(** A decision procedure refutes [Contains]. *)
Lemma index_none_not_Contains (msg s : string) :
  s <> ""%string -> index 0 s msg = None -> ~ Contains msg s.
Proof.
  intros Hs Hindex (before & after & ->).
  apply (index_correct3 0 (String.length before) _ _ Hindex Hs (Nat.le_0_l _)).
  apply substring_middle.
Qed.

(** ** Status tests and offsets into a literal *)

Lemma neq_false_eq (a b : Z) : neq a b = false -> a = b.
Proof.
  unfold neq. destruct (Z.eqb_spec a b); [trivial | discriminate].
Qed.

Lemma neq_true_ne (a b : Z) : neq a b = true -> a <> b.
Proof.
  unfold neq. destruct (Z.eqb_spec a b); [discriminate | trivial].
Qed.

Lemma nul_free_drop (n : nat) (s : string) : nul_free s = true -> nul_free (drop n s) = true.
Proof.
  revert s. induction n as [| n IH]; intros [| c s]; simpl; auto.
  intro H. apply andb_prop in H. apply IH, H.
Qed.

Lemma literal_plus_nul_free (literal s : string) (n : Z) :
  nul_free literal = true -> literal_plus literal n = Some s -> nul_free s = true.
Proof.
  unfold literal_plus. intros Hfree.
  destruct ((0 <=? n) && (n <=? Z.of_nat (String.length literal))); [| discriminate].
  intro H. injection H as <-. now apply nul_free_drop.
Qed.

(** Splits on a status check; on the passing side the status is [S_OK]. *)
Ltac settle_status hr :=
  let E := fresh "E" in
  destruct (neq hr S_OK) eqn:E;
  [ apply neq_true_ne in E | apply neq_false_eq in E; subst hr ].

(** ** Every way Direct3D initialization can end *)

Ltac fails_with_message :=
  right; split;
  [ tauto
  | left; eexists; split;
    [ reflexivity | now rewrite nul_free_append, nul_free_to_string ] ].

(** Entered from [main], [InitializeDirect3d] either gets [S_OK] nine times
    and returns with the globals set, or stops at the first other status:
    with an exception whose message has no terminator inside, or, only at
    the depth-texture check and only when the status is no offset into that
    check's literal, with undefined behaviour. *)
Lemma InitializeDirect3d_outcome (world : World) (h : HWND) (window : SDL_Window) :
  let r := InitializeDirect3d world h (entering_direct3d window) in
  (direct3d_ready world /\ r = (Normal tt, initialized window h)) \/
  (~ direct3d_ready world /\
   ((exists msg, fst r = Thrown (Direct3dException_ctor msg) /\ nul_free msg = true) \/
    (fst r = Undefined /\
     literal_plus "Failed to create 2D texture for depth stencil buffer. Error Code: "
       (CreateTexture2D_result world) = None))).
Proof.
  destruct world as [i e w q n hr1 hr2 hr3 hr4 hr5 hr6 hr7 hr8 hr9 p].
  unfold direct3d_ready.
  cbv zeta.
  cbv [InitializeDirect3d InitializeDeviceAndDeviceContext InitializeSwapChain
       InitializeBackBufferAndDepthStencilView InitializeViewport
       SDL_Log D3D11CreateDevice As_IDXGIDevice IDXGIDevice_GetParent
       IDXGIAdapter_GetParent CreateSwapChain GetBuffer CreateRenderTargetView
       CreateTexture2D CreateDepthStencilView OMSetRenderTargets RSSetViewports
       bind emit ret arrow get when throw undefined
       store_device_and_context store_direct3dSwapChain store_mRenderTargetView
       store_mDepthStencilView bind_output_merger bind_viewports
       D3D11CreateDevice_result As_IDXGIDevice_result GetParent_IDXGIAdapter_result
       GetParent_IDXGIFactory_result CreateSwapChain_result GetBuffer_result
       CreateRenderTargetView_result CreateTexture2D_result CreateDepthStencilView_result].
  settle_status hr1; [fails_with_message |].
  settle_status hr2; [fails_with_message |].
  settle_status hr3; [fails_with_message |].
  settle_status hr4; [fails_with_message |].
  settle_status hr5; [fails_with_message |].
  settle_status hr6; [fails_with_message |].
  settle_status hr7; [fails_with_message |].
  settle_status hr8.
  - right. split; [tauto |].
    destruct (literal_plus
                "Failed to create 2D texture for depth stencil buffer. Error Code: " hr8)
      as [s |] eqn:Hliteral.
    + left. exists s. split; [reflexivity |].
      eapply literal_plus_nul_free; [| exact Hliteral]. reflexivity.
    + right. split; reflexivity.
  - settle_status hr9; [fails_with_message |].
    left. split; [repeat split | reflexivity].
Qed.

(** ** Every way a run can end *)

Lemma logged_app (a b : list Call) : logged (a ++ b) = logged a ++ logged b.
Proof.
  induction a as [| c a IH]; [reflexivity |].
  destruct c; simpl; rewrite IH; reflexivity.
Qed.

Lemma run_without_sdl (world : World) :
  SDL_Init_result world <> 0 -> exit_status world = Normal 1.
Proof.
  intro H. unfold exit_status, run, main.
  step. rewrite (neq_true _ _ H). reflexivity.
Qed.

Lemma run_without_window (world : World) :
  SDL_Init_result world = 0 ->
  SDL_CreateWindow_result world = None ->
  exit_status world = Normal 1.
Proof.
  intros Hinit Hwindow. unfold exit_status, run, main.
  step. rewrite Hinit. cbn [neq Z.eqb negb].
  step. step. step. rewrite Hwindow. reflexivity.
Qed.

Lemma quit_polled_cases (answers : list (option SDL_Event)) :
  existsb is_quit answers = false <->
  forallb (fun a => negb (is_quit a)) answers = true.
Proof.
  induction answers as [| a answers IH]; simpl; [tauto |].
  destruct (is_quit a); simpl; [split; discriminate | exact IH].
Qed.

(** With SDL and the window up, a run ends in one of four ways. *)
Lemma exit_status_classification (world : World) (window : SDL_Window) :
  platform_ready world window ->
  (direct3d_ready world /\ existsb is_quit (polls world) = true /\
   exit_status world = Normal 0) \/
  (direct3d_ready world /\ existsb is_quit (polls world) = false /\
   exit_status world = Unfinished) \/
  (~ direct3d_ready world /\
   exists msg,
     fst (InitializeDirect3d world (handle_passed world) (entering_direct3d window))
       = Thrown (Direct3dException_ctor msg) /\
     exit_status world = Normal 1 /\
     last (logged (trace world)) ""%string = error_line msg) \/
  (~ direct3d_ready world /\
   literal_plus "Failed to create 2D texture for depth stencil buffer. Error Code: "
     (CreateTexture2D_result world) = None /\
   exit_status world = Undefined).
Proof.
  intro Hplatform.
  destruct (InitializeDirect3d_outcome world (handle_passed world) window)
    as [[Hready Hrun] | [Hnot [(msg & Hthrown & Hfree) | [Hundefined Hliteral]]]].
  - destruct (existsb is_quit (polls world)) eqn:Hquit.
    + left. split; [assumption |]. split; [reflexivity |].
      destruct (polls_cases (polls world))
        as [Hnone | (before & answer & after & Hpolls & Hbefore & Hanswer)].
      * apply quit_polled_cases in Hnone. congruence.
      * unfold exit_status.
        now rewrite (run_quits world window before after answer).
    + right. left. split; [assumption |]. split; [reflexivity |].
      apply quit_polled_cases in Hquit.
      unfold exit_status. now rewrite (run_unfinished world window).
  - right. right. left. split; [assumption |]. exists msg.
    destruct (InitializeDirect3d world (handle_passed world) (entering_direct3d window))
      as [o m'] eqn:Hrun.
    simpl in Hthrown. subst o.
    assert (H := run_catches world window msg m' Hplatform Hrun Hfree).
    unfold exit_status, trace. rewrite H. split; [reflexivity |]. split; [reflexivity |].
    cbn [snd calls record_calls].
    rewrite logged_app. apply last_last.
  - right. right. right. split; [assumption |]. split; [assumption |].
    destruct (InitializeDirect3d world (handle_passed world) (entering_direct3d window))
      as [o m'] eqn:Hrun.
    simpl in Hundefined. subst o.
    unfold exit_status. now rewrite (run_undefined world window m' Hplatform Hrun).
Qed.

(** ** What the first failing check reports *)

(** Eight of the nine checks build their message with [std::to_string]; the
    check on the depth texture adds the status to the literal's address. *)
Lemma first_failure_outcome (world : World) (h : HWND) (window : SDL_Window) :
  let r := fst (InitializeDirect3d world h (entering_direct3d window)) in
  let hr1 := D3D11CreateDevice_result world in
  let hr2 := As_IDXGIDevice_result world in
  let hr3 := GetParent_IDXGIAdapter_result world in
  let hr4 := GetParent_IDXGIFactory_result world in
  let hr5 := CreateSwapChain_result world in
  let hr6 := GetBuffer_result world in
  let hr7 := CreateRenderTargetView_result world in
  let hr8 := CreateTexture2D_result world in
  let hr9 := CreateDepthStencilView_result world in
  let says (literal : string) (hr : HRESULT) :=
    r = Thrown (Direct3dException_ctor (literal ++ to_string hr)) in
  (hr1 <> S_OK ->
   says "Error initializing device or device context. Error code: " hr1) /\
  (hr1 = S_OK -> hr2 <> S_OK ->
   says "Failed to retrive interface for IDXGIDevice. Error code: " hr2) /\
  (hr1 = S_OK -> hr2 = S_OK -> hr3 <> S_OK ->
   says "Failed to retrieve parent IDXGIAdapter from IDXGIDevice. Error code: " hr3) /\
  (hr1 = S_OK -> hr2 = S_OK -> hr3 = S_OK -> hr4 <> S_OK ->
   says "Failed to retrieve parent IDXGIFactory from IDXGIFactory. Error code: " hr4) /\
  (hr1 = S_OK -> hr2 = S_OK -> hr3 = S_OK -> hr4 = S_OK -> hr5 <> S_OK ->
   says "Failed to create swapchain. Error code: " hr5) /\
  (hr1 = S_OK -> hr2 = S_OK -> hr3 = S_OK -> hr4 = S_OK -> hr5 = S_OK -> hr6 <> S_OK ->
   says "Failed to retrieve swapchain back buffer. Error Code" hr6) /\
  (hr1 = S_OK -> hr2 = S_OK -> hr3 = S_OK -> hr4 = S_OK -> hr5 = S_OK -> hr6 = S_OK ->
   hr7 <> S_OK ->
   says "Failed to create render target view. Error Code: " hr7) /\
  (hr1 = S_OK -> hr2 = S_OK -> hr3 = S_OK -> hr4 = S_OK -> hr5 = S_OK -> hr6 = S_OK ->
   hr7 = S_OK -> hr8 <> S_OK ->
   r = match literal_plus
               "Failed to create 2D texture for depth stencil buffer. Error Code: " hr8 with
       | Some suffix => Thrown (Direct3dException_ctor suffix)
       | None => Undefined
       end) /\
  (hr1 = S_OK -> hr2 = S_OK -> hr3 = S_OK -> hr4 = S_OK -> hr5 = S_OK -> hr6 = S_OK ->
   hr7 = S_OK -> hr8 = S_OK -> hr9 <> S_OK ->
   says "Failed to create depth stencil view. Error Code: " hr9).
Proof.
  destruct world as [i e w q n hr1 hr2 hr3 hr4 hr5 hr6 hr7 hr8 hr9 p].
  cbv zeta.
  cbv [InitializeDirect3d InitializeDeviceAndDeviceContext InitializeSwapChain
       InitializeBackBufferAndDepthStencilView InitializeViewport
       SDL_Log D3D11CreateDevice As_IDXGIDevice IDXGIDevice_GetParent
       IDXGIAdapter_GetParent CreateSwapChain GetBuffer CreateRenderTargetView
       CreateTexture2D CreateDepthStencilView OMSetRenderTargets RSSetViewports
       bind emit ret arrow get when throw undefined
       store_device_and_context store_direct3dSwapChain store_mRenderTargetView
       store_mDepthStencilView bind_output_merger bind_viewports
       D3D11CreateDevice_result As_IDXGIDevice_result GetParent_IDXGIAdapter_result
       GetParent_IDXGIFactory_result CreateSwapChain_result GetBuffer_result
       CreateRenderTargetView_result CreateTexture2D_result CreateDepthStencilView_result].
  repeat split; intros; subst;
    match goal with
    | H : _ <> S_OK |- _ => rewrite (neq_true _ _ H)
    end;
    rewrite ?neq_refl; try reflexivity.
  destruct (literal_plus _ hr8); reflexivity.
Qed.

(** ** Claims *)

(** C1 (as amended).  When all initialization succeeds and the very first
    poll of the event queue yields a quit event, the process exits with
    status 0 after exactly one clear/present cycle: the body of the loop is
    completed for the iteration that polled the quit event, so there is one
    render-target clear, one depth-stencil clear and one present, all after
    start-up and before [SDL_Quit]. *)
Theorem quit_on_first_poll_renders_once (world : World) (window : SDL_Window)
    (e : SDL_Event) (later : list (option SDL_Event)) :
  platform_ready world window ->
  direct3d_ready world ->
  polls world = Some e :: later ->
  type e = SDL_QUIT ->
  exit_status world = Normal 0 /\
  trace world =
    startup_calls window (handle_passed world) ++ frame_calls ++ [Call_SDL_Quit] /\
  count is_clear_render_target (trace world) = 1%nat /\
  count is_clear_depth_stencil (trace world) = 1%nat /\
  count is_present (trace world) = 1%nat.
Proof.
  intros Hplatform Hd3d Hpolls Hquit.
  assert (Hrun := run_quits world window [] later (Some e) Hplatform Hd3d Hpolls
                    eq_refl).
  simpl in Hrun. rewrite Hquit in Hrun. specialize (Hrun eq_refl).
  unfold exit_status, trace. rewrite Hrun. simpl.
  repeat split; reflexivity.
Qed.

Lemma quit_on_first_poll_renders_once_witness :
  exit_status (sunny true [Some {| type := SDL_QUIT |}]) = Normal 0 /\
  count is_present (trace (sunny true [Some {| type := SDL_QUIT |}])) = 1%nat.
Proof.
  destruct (quit_on_first_poll_renders_once
              (sunny true [Some {| type := SDL_QUIT |}]) (Window 1)
              {| type := SDL_QUIT |} [])
    as (Hexit & _ & _ & _ & Hpresent).
  - split; reflexivity.
  - repeat split; reflexivity.
  - reflexivity.
  - reflexivity.
  - split; assumption.
Defined.

(** C1 as stated fails: in a world where everything succeeds and the first
    poll is a quit event, the run does not get by with zero clears and zero
    presents. *)
Lemma quit_on_first_poll_not_zero_cycles :
  let world := sunny true [Some {| type := SDL_QUIT |}] in
  platform_ready world (Window 1) /\
  direct3d_ready world /\
  hd_error (polls world) = Some (Some {| type := SDL_QUIT |}) /\
  exit_status world = Normal 0 /\
  ~ (count is_clear_render_target (trace world) = 0%nat /\
     count is_clear_depth_stencil (trace world) = 0%nat /\
     count is_present (trace world) = 0%nat).
Proof.
  cbv zeta. split; [split; reflexivity |].
  split; [repeat split; reflexivity |].
  split; [reflexivity |]. split; [reflexivity |].
  intros (_ & _ & H). vm_compute in H. discriminate H.
Qed.

(** C2.  Whatever status other than [S_OK] device creation answers, the
    device initializer throws a [Direct3dException] whose message is the
    fixed text followed by the decimal rendering of that status, so the
    message contains the status; and when SDL and the window are up, the
    process makes no further native call, logs the message behind the
    handler's prefix, and returns 1. *)
Theorem device_creation_failure_reported (world : World) (window : SDL_Window) :
  D3D11CreateDevice_result world <> S_OK ->
  let hr := D3D11CreateDevice_result world in
  let msg := ("Error initializing device or device context. Error code: "
                ++ to_string hr)%string in
  (forall m, exists m',
       InitializeDeviceAndDeviceContext world m = (Thrown (Direct3dException_ctor msg), m')) /\
  Contains msg (to_string hr) /\
  (platform_ready world window ->
   exit_status world = Normal 1 /\
   trace world =
     calls (entering_direct3d window) ++
     [ Call_SDL_Log "Initializing Direct3D Device and DeviceContext...";
       Call_D3D11CreateDevice None D3D_DRIVER_TYPE_HARDWARE None 3 0 0 D3D11_SDK_VERSION;
       Call_SDL_Log (error_line msg) ] /\
   Contains (error_line msg) (to_string hr)).
Proof.
  intros Hhr hr msg. split; [| split].
  - intro m. destruct (device_creation_failure world m Hhr) as (m' & Hrun & _).
    now exists m'.
  - exists "Error initializing device or device context. Error code: "%string, ""%string.
    unfold msg. now rewrite append_empty_r.
  - intro Hplatform.
    destruct (InitializeDirect3d_device_failure world (handle_passed world)
                (entering_direct3d window) Hhr) as (m' & Hrun & Hcalls).
    assert (Hfree : nul_free msg = true).
    { unfold msg. rewrite nul_free_append, nul_free_to_string. reflexivity. }
    assert (H := run_catches world window msg m' Hplatform Hrun Hfree).
    unfold exit_status, trace. rewrite H. split; [reflexivity |]. split.
    + cbn [snd calls record_calls]. rewrite Hcalls, <- app_assoc. reflexivity.
    + exists "An error occured initialization Direct3D: Error initializing device or device context. Error code: "%string, ""%string.
      unfold error_line, msg. now rewrite append_empty_r.
Qed.

(** The scenario of C2: device creation answers 0x887A0004. *)
Lemma device_creation_failure_reported_witness :
  exit_status (device_creation_answers DXGI_ERROR_DEVICE_HUNG) = Normal 1 /\
  last (logged (trace (device_creation_answers DXGI_ERROR_DEVICE_HUNG))) ""%string =
    "An error occured initialization Direct3D: Error initializing device or device context. Error code: -2005270524"%string /\
  to_string DXGI_ERROR_DEVICE_HUNG = "-2005270524"%string.
Proof.
  destruct (device_creation_failure_reported
              (device_creation_answers DXGI_ERROR_DEVICE_HUNG) (Window 1))
    as (_ & _ & Hprocess).
  - vm_compute. discriminate.
  - destruct Hprocess as (Hexit & Htrace & _); [split; reflexivity |].
    split; [exact Hexit |]. split; [| reflexivity].
    rewrite Htrace. reflexivity.
Defined.

(** C3, at the depth-texture check.  The throw expression adds the status to
    the address of the literal.  For [E_OUTOFMEMORY] (0x8007000E) the
    resulting pointer lies far outside the literal, so the initializer has
    undefined behaviour and raises no exception that carries the status; for
    [S_FALSE] it lies one character into the literal, so the message is the
    literal without its first character and the status appears nowhere in
    it.  The check on the depth-stencil view, written with
    [std::to_string], reports the same status in full. *)
Theorem depth_texture_failure_message :
  fst (InitializeBackBufferAndDepthStencilView
         (back_buffer_answers S_OK S_OK E_OUTOFMEMORY S_OK) with_swap_chain)
    = Undefined /\
  to_string E_OUTOFMEMORY = "-2147024882"%string /\
  fst (InitializeBackBufferAndDepthStencilView
         (back_buffer_answers S_OK S_OK S_FALSE S_OK) with_swap_chain)
    = Thrown (Direct3dException_ctor
                "ailed to create 2D texture for depth stencil buffer. Error Code: ") /\
  ~ Contains "ailed to create 2D texture for depth stencil buffer. Error Code: "
      (to_string S_FALSE) /\
  fst (InitializeBackBufferAndDepthStencilView
         (back_buffer_answers S_OK S_OK S_OK E_OUTOFMEMORY) with_swap_chain)
    = Thrown (Direct3dException_ctor
                "Failed to create depth stencil view. Error Code: -2147024882").
Proof.
  split; [reflexivity |]. split; [reflexivity |]. split; [reflexivity |].
  split; [| reflexivity].
  apply index_none_not_Contains; [discriminate | reflexivity].
Qed.

(** C4.  Entered with a device, the swap-chain initializer walks
    device to [IDXGIDevice] to adapter to factory to swap chain and stops at the
    first step whose status is not [S_OK]: it throws the message of that
    step, and the native calls it has made are the steps up to and including
    the failing one and nothing after it.  In particular, when the
    [IDXGIDevice] query fails, no [GetParent] call is made. *)
Theorem swap_chain_stops_at_first_failure (world : World) (h : HWND) (m : Machine)
    (device : ComObject) :
  direct3dDevice m = Some device ->
  let r := InitializeSwapChain world h m in
  let log := Call_SDL_Log "Initializing Direct3D swapchain..." in
  let query := Call_As_IDXGIDevice device in
  let adapter := Call_GetParent TheDxgiDevice IID_IDXGIAdapter in
  let factory := Call_GetParent TheAdapter IID_IDXGIFactory in
  let create := Call_CreateSwapChain TheFactory (Some device) (swap_chain_desc h) in
  (As_IDXGIDevice_result world <> S_OK ->
   fst r = Thrown (Direct3dException_ctor
                     ("Failed to retrive interface for IDXGIDevice. Error code: "
                        ++ to_string (As_IDXGIDevice_result world))) /\
   calls (snd r) = calls m ++ [log; query] /\
   count is_get_parent (calls (snd r)) = count is_get_parent (calls m)) /\
  (As_IDXGIDevice_result world = S_OK ->
   GetParent_IDXGIAdapter_result world <> S_OK ->
   fst r = Thrown (Direct3dException_ctor
                     ("Failed to retrieve parent IDXGIAdapter from IDXGIDevice. Error code: "
                        ++ to_string (GetParent_IDXGIAdapter_result world))) /\
   calls (snd r) = calls m ++ [log; query; adapter]) /\
  (As_IDXGIDevice_result world = S_OK ->
   GetParent_IDXGIAdapter_result world = S_OK ->
   GetParent_IDXGIFactory_result world <> S_OK ->
   fst r = Thrown (Direct3dException_ctor
                     ("Failed to retrieve parent IDXGIFactory from IDXGIFactory. Error code: "
                        ++ to_string (GetParent_IDXGIFactory_result world))) /\
   calls (snd r) = calls m ++ [log; query; adapter; factory]) /\
  (As_IDXGIDevice_result world = S_OK ->
   GetParent_IDXGIAdapter_result world = S_OK ->
   GetParent_IDXGIFactory_result world = S_OK ->
   CreateSwapChain_result world <> S_OK ->
   fst r = Thrown (Direct3dException_ctor
                     ("Failed to create swapchain. Error code: "
                        ++ to_string (CreateSwapChain_result world))) /\
   calls (snd r) = calls m ++ [log; query; adapter; factory; create]).
Proof.
  intros Hdevice r log query adapter factory create.
  subst r.
  cbv [InitializeSwapChain bind SDL_Log As_IDXGIDevice IDXGIDevice_GetParent
       IDXGIAdapter_GetParent CreateSwapChain emit ret arrow get when throw
       store_direct3dSwapChain].
  cbn [direct3dDevice record_calls]. rewrite Hdevice. cbv beta iota.
  repeat split.
  all: intros.
  all: repeat match goal with
         | H : _ <> S_OK |- _ => rewrite (neq_true _ _ H); clear H
         | H : _ = S_OK |- _ => rewrite H; clear H
         end.
  all: cbn [neq Z.eqb S_OK negb produced SUCCEEDED Z.leb Z.compare arrow_local ret fst snd
            calls record_calls direct3dDevice set_direct3dSwapChain].
  all: try reflexivity.
  all: rewrite <- ?app_assoc; try reflexivity.
  - unfold count. rewrite filter_app, length_app. simpl. lia.
  - rewrite Hdevice. reflexivity.
Qed.

Lemma swap_chain_stops_at_first_failure_witness :
  let world := with_swap_chain_results DXGI_ERROR_DEVICE_HUNG S_OK S_OK S_OK in
  calls (snd (InitializeSwapChain world (WindowHandle 4096) with_swap_chain)) =
    [ Call_SDL_Log "Initializing Direct3D swapchain..."; Call_As_IDXGIDevice TheDevice ] /\
  count is_get_parent
    (calls (snd (InitializeSwapChain world (WindowHandle 4096) with_swap_chain))) = 0%nat.
Proof.
  destruct (swap_chain_stops_at_first_failure
              (with_swap_chain_results DXGI_ERROR_DEVICE_HUNG S_OK S_OK S_OK)
              (WindowHandle 4096) with_swap_chain TheDevice eq_refl)
    as (Hfirst & _).
  destruct Hfirst as (_ & Hcalls & Hcount).
  - vm_compute. discriminate.
  - split; [exact Hcalls | exact Hcount].
Defined.

(** C5, at the depth-texture check.  SDL and the window are up, every call
    before the creation of the depth texture succeeds, and that call answers
    [E_OUTOFMEMORY]: Direct3D initialization has failed, yet the run has
    undefined behaviour instead of returning 1, no exception reaches the
    handler in [main], and no error line is logged. *)
Theorem depth_texture_failure_exit :
  let world := back_buffer_answers S_OK S_OK E_OUTOFMEMORY S_OK in
  platform_ready world (Window 1) /\
  ~ direct3d_ready world /\
  exit_status world = Undefined /\
  exit_status world <> Normal 1 /\
  logged (trace world) =
    [ "SDL initialized..."; "Initializing main window...";
      "Main application window created..."; "Initializing Direct3D...";
      "Initializing Direct3D Device and DeviceContext...";
      "Initializing Direct3D swapchain..." ]%string.
Proof.
  cbv zeta. split; [split; reflexivity |]. split.
  - intros (_ & _ & _ & _ & _ & _ & _ & H & _). vm_compute in H. discriminate H.
  - split; [reflexivity |]. split; [| reflexivity].
    intro H. vm_compute in H. discriminate H.
Qed.

(** C6.  With [Running] for [quit == false] and [Quit] for [quit == true]:
    an iteration that starts in [Running] ends in [Quit] exactly when its
    poll delivered an event of type [SDL_QUIT]; any other event and an empty
    poll leave it in [Running]; the value the loop body hands to the next
    test of the loop condition is that state; and in [Quit] the loop is
    over, with nothing polled and no call made, so no transition leaves
    [Quit]. *)
Theorem frame_loop_state_machine :
  (forall answer,
     loop_state (handle_poll false answer) = Quit <->
     exists e, answer = Some e /\ type e = SDL_QUIT) /\
  (forall answer,
     loop_state (handle_poll false answer) = Running <->
     answer = None \/ exists e, answer = Some e /\ type e <> SDL_QUIT) /\
  (forall answer, loop_state (handle_poll true answer) = Quit) /\
  (forall answer later m,
     LoopReady m ->
     frame_loop (answer :: later) false m =
     frame_loop later (handle_poll false answer) (record_calls frame_calls m)) /\
  (forall answers m, frame_loop answers true m = (Normal tt, m)).
Proof.
  split; [| split; [| split; [| split]]].
  - intros [e |]; simpl.
    + destruct (Z.eqb_spec (type e) SDL_QUIT) as [Heq | Hne]; simpl; split.
      * intros _. now exists e.
      * reflexivity.
      * discriminate.
      * intros (e' & He' & Hq). injection He' as <-. contradiction.
    + split; [discriminate | intros (e & He & _); discriminate].
  - intros [e |]; simpl.
    + destruct (Z.eqb_spec (type e) SDL_QUIT) as [Heq | Hne]; simpl; split.
      * discriminate.
      * intros [H | (e' & He' & Hq)]; [discriminate |].
        injection He' as <-. contradiction.
      * intros _. right. now exists e.
      * reflexivity.
    + split; [now left | reflexivity].
  - intros [e |]; simpl; [| reflexivity]. now destruct (type e =? SDL_QUIT).
  - intros answer later m Hm. cbn [frame_loop]. unfold bind.
    now rewrite frame_ready.
  - apply frame_loop_left.
Qed.

Lemma frame_loop_state_machine_witness :
  frame_loop [Some {| type := 0x300 |}; None] false (initialized (Window 1) IndeterminateHandle) =
  frame_loop [None] (handle_poll false (Some {| type := 0x300 |}))
    (record_calls frame_calls (initialized (Window 1) IndeterminateHandle)).
Proof.
  destruct frame_loop_state_machine as (_ & _ & _ & Hstep & _).
  apply Hstep. repeat split.
Defined.

(** C7.  When SDL, the window and all nine Direct3D calls succeed, the frame
    loop is entered in a state where the output-merger stage has exactly one
    render target view and the depth-stencil view bound; no iteration of the
    loop changes that binding, however many there are; the binding call is
    made once in the whole run; and every clear the loop issues is aimed at
    the bound views. *)
Theorem output_merger_bound_after_initialization (world : World) (window : SDL_Window) :
  platform_ready world window ->
  direct3d_ready world ->
  let entry := initialized window (handle_passed world) in
  run world = (frame_loop (polls world) false ;; SDL_Quit ;; ret 0) entry /\
  om_render_targets entry = [Some BackBufferView] /\
  length (om_render_targets entry) = 1%nat /\
  om_depth_stencil entry = Some DepthStencilView /\
  (forall answers quit m,
     OutputBound m -> OutputBound (snd (frame_loop answers quit m))) /\
  OutputBound (snd (run world)) /\
  count is_bind_output_merger (trace world) = 1%nat /\
  Forall (clears_target (Some BackBufferView) (Some DepthStencilView)) (trace world).
Proof.
  intros Hplatform Hd3d entry.
  split; [now apply run_initialized |].
  do 3 (split; [reflexivity |]).
  split; [exact frame_loop_keeps_output_merger |].
  destruct (run_ready_cases world window Hplatform Hd3d) as [n [Hrun | Hrun]];
    unfold trace; rewrite Hrun; cbn [snd calls record_calls initialized].
  - split; [split; reflexivity |]. split.
    + rewrite !count_app, frames_no_binding. reflexivity.
    + rewrite !Forall_app. repeat split.
      * apply startup_clears_nothing.
      * apply frames_clear_bound_views.
      * repeat constructor.
  - split; [split; reflexivity |]. split.
    + rewrite !count_app, frames_no_binding. reflexivity.
    + rewrite !Forall_app. split.
      * apply startup_clears_nothing.
      * apply frames_clear_bound_views.
Qed.

Lemma output_merger_bound_after_initialization_witness :
  OutputBound (snd (run (sunny true [None; Some {| type := 0x300 |}; Some {| type := SDL_QUIT |}]))) /\
  count is_bind_output_merger
    (trace (sunny true [None; Some {| type := 0x300 |}; Some {| type := SDL_QUIT |}])) = 1%nat.
Proof.
  destruct (output_merger_bound_after_initialization
              (sunny true [None; Some {| type := 0x300 |}; Some {| type := SDL_QUIT |}])
              (Window 1))
    as (_ & _ & _ & _ & _ & Hbound & Hcount & _).
  - split; reflexivity.
  - repeat split; reflexivity.
  - split; assumption.
Defined.

(** C8.  The window is created 640 by 480; the depth-stencil texture is
    described as 640 by 480; the viewport is set at the origin with size 800
    by 600 and depth range 0 to 1.  The three sizes do not agree: the
    viewport's differs in both dimensions from the size shared by the window
    and the depth-stencil texture. *)
Theorem window_depth_buffer_and_viewport_sizes :
  (forall world,
     SDL_Init_result world = 0 ->
     exists more,
       trace world =
         [ Call_SDL_Init 0x4030;
           Call_SDL_Log "SDL initialized...";
           Call_SDL_Log "Initializing main window...";
           Call_SDL_CreateWindow "Rotating Cube" SDL_WINDOWPOS_CENTERED
             SDL_WINDOWPOS_CENTERED 640 480 0 ] ++ more) /\
  (Width depthStencilDesc = 640 /\ Height depthStencilDesc = 480) /\
  vp = {| TopLeftX := 0 # 1; TopLeftY := 0 # 1;
          ViewportWidth := 800 # 1; ViewportHeight := 600 # 1;
          MinDepth := 0 # 1; MaxDepth := 1 # 1 |} /\
  (forall world window,
     platform_ready world window ->
     direct3d_ready world ->
     In (Call_CreateTexture2D TheDevice depthStencilDesc) (trace world) /\
     In (Call_RSSetViewports TheImmediateContext 1 [vp]) (trace world) /\
     rs_viewports (snd (run world)) = [vp]) /\
  (~ (ViewportWidth vp == inject_Z (Width depthStencilDesc))%Q /\
   ~ (ViewportHeight vp == inject_Z (Height depthStencilDesc))%Q /\
   ~ (ViewportWidth vp == inject_Z 640)%Q /\
   ~ (ViewportHeight vp == inject_Z 480)%Q).
Proof.
  split; [| split; [| split; [| split]]].
  - intros world Hinit.
    destruct (main_starts_with_window world Hinit startup) as [more Hmore].
    exists more. exact Hmore.
  - split; reflexivity.
  - reflexivity.
  - intros world window Hplatform Hd3d.
    destruct (trace_initialized world window Hplatform Hd3d) as (more & Htrace & Hvp & _).
    rewrite Htrace. split; [| split; [| exact Hvp]].
    + apply in_or_app. left. unfold startup_calls. simpl. tauto.
    + apply in_or_app. left. unfold startup_calls. simpl. tauto.
  - repeat split; intro H; vm_compute in H; discriminate H.
Qed.

Lemma window_depth_buffer_and_viewport_sizes_witness :
  nth_error (trace (sunny true [])) 3 =
    Some (Call_SDL_CreateWindow "Rotating Cube" SDL_WINDOWPOS_CENTERED
            SDL_WINDOWPOS_CENTERED 640 480 0) /\
  In (Call_CreateTexture2D TheDevice depthStencilDesc) (trace (sunny true [])) /\
  rs_viewports (snd (run (sunny true []))) = [vp].
Proof.
  destruct window_depth_buffer_and_viewport_sizes as (Hwindow & _ & _ & Hready & _).
  destruct (Hwindow (sunny true []) eq_refl) as [more Hmore].
  destruct (Hready (sunny true []) (Window 1)) as (Htexture & _ & Hvp).
  - split; reflexivity.
  - repeat split; reflexivity.
  - split; [rewrite Hmore; reflexivity |]. split; assumption.
Defined.

(** C9.  For every message [m], the exception constructed from [m] stores
    [m] unchanged, and [what()] points at a buffer that holds exactly the
    characters of [m] followed by the terminator; a reader of that C string
    gets [m] back whenever [m] itself has no terminator inside. *)
Theorem what_returns_constructor_argument (m : string) :
  m_errorMessage (Direct3dException_ctor m) = m /\
  what (Direct3dException_ctor m) = c_str m /\
  (nul_free m = true -> read_cstr (what (Direct3dException_ctor m)) = m).
Proof.
  split; [reflexivity |]. split; [reflexivity |].
  intro H. unfold what; simpl. now apply read_cstr_c_str.
Qed.

Lemma what_returns_constructor_argument_witness :
  read_cstr (what (Direct3dException_ctor "Failed to create swapchain. Error code: -1"))
  = "Failed to create swapchain. Error code: -1"%string.
Proof.
  apply (what_returns_constructor_argument
           "Failed to create swapchain. Error code: -1").
  reflexivity.
Defined.

(** C10.  [main] discards what [SDL_GetWindowWMInfo] returns.  When SDL and
    the window are up and that query fails, the next calls are still the
    ones that start Direct3D initialization, the handle handed on is the
    never-written field of the local structure, and, if the Direct3D calls
    then succeed, the swap chain is created for that indeterminate handle
    and the process does not return 1. *)
Theorem window_handle_query_unchecked (world : World) (window : SDL_Window) :
  platform_ready world window ->
  SDL_GetWindowWMInfo_result world = false ->
  (exists more,
     trace world =
       [ Call_SDL_Init 0x4030;
         Call_SDL_Log "SDL initialized...";
         Call_SDL_Log "Initializing main window...";
         Call_SDL_CreateWindow "Rotating Cube" SDL_WINDOWPOS_CENTERED
           SDL_WINDOWPOS_CENTERED 640 480 0;
         Call_SDL_Log "Main application window created...";
         Call_SDL_GetWindowWMInfo window;
         Call_SDL_Log "Initializing Direct3D...";
         Call_SDL_Log "Initializing Direct3D Device and DeviceContext...";
         Call_D3D11CreateDevice None D3D_DRIVER_TYPE_HARDWARE None 3 0 0
           D3D11_SDK_VERSION ] ++ more) /\
  handle_passed world = IndeterminateHandle /\
  (direct3d_ready world ->
   In (Call_CreateSwapChain TheFactory (Some TheDevice)
         (swap_chain_desc IndeterminateHandle)) (trace world) /\
   (exit_status world = Normal 0 \/ exit_status world = Unfinished)).
Proof.
  intros Hplatform Hquery. split; [| split].
  - destruct (main_starts_direct3d world window Hplatform startup) as [more Hmore].
    exists more. exact Hmore.
  - unfold handle_passed. now rewrite Hquery.
  - intro Hd3d.
    destruct (trace_initialized world window Hplatform Hd3d) as (more & Htrace & _ & Hexit).
    split; [| exact Hexit].
    rewrite Htrace. unfold handle_passed. rewrite Hquery.
    apply in_or_app. left. unfold startup_calls. simpl. tauto.
Qed.

Lemma window_handle_query_unchecked_witness :
  In (Call_CreateSwapChain TheFactory (Some TheDevice)
        (swap_chain_desc IndeterminateHandle))
     (trace (sunny false [Some {| type := SDL_QUIT |}])) /\
  (exit_status (sunny false [Some {| type := SDL_QUIT |}]) = Normal 0 \/
   exit_status (sunny false [Some {| type := SDL_QUIT |}]) = Unfinished).
Proof.
  destruct (window_handle_query_unchecked
              (sunny false [Some {| type := SDL_QUIT |}]) (Window 1))
    as (_ & _ & Hready).
  - split; reflexivity.
  - reflexivity.
  - apply Hready. repeat split; reflexivity.
Defined.

(** ** Direct3D initialization, by the first check that fails *)

Ltac unfold_initialization :=
  cbv [InitializeDirect3d InitializeDeviceAndDeviceContext InitializeSwapChain
       InitializeBackBufferAndDepthStencilView InitializeViewport
       SDL_Log D3D11CreateDevice As_IDXGIDevice IDXGIDevice_GetParent
       IDXGIAdapter_GetParent CreateSwapChain GetBuffer CreateRenderTargetView
       CreateTexture2D CreateDepthStencilView OMSetRenderTargets RSSetViewports
       bind emit ret arrow get when throw undefined
       store_device_and_context store_direct3dSwapChain store_mRenderTargetView
       store_mDepthStencilView bind_output_merger bind_viewports
       first_failure checks find status_of
       D3D11CreateDevice_result As_IDXGIDevice_result GetParent_IDXGIAdapter_result
       GetParent_IDXGIFactory_result CreateSwapChain_result GetBuffer_result
       CreateRenderTargetView_result CreateTexture2D_result CreateDepthStencilView_result].

Ltac stopped_here :=
  split; [reflexivity | intros _; repeat split; reflexivity].

Lemma InitializeDirect3d_by_first_failure (world : World) (h : HWND)
    (window : SDL_Window) :
  let r := InitializeDirect3d world h (entering_direct3d window) in
  match first_failure world with
  | None => r = (Normal tt, initialized window h)
  | Some CheckCreateDepthTexture =>
      fst r =
        match literal_plus (literal_of CheckCreateDepthTexture)
                (CreateTexture2D_result world) with
        | Some suffix => Thrown (Direct3dException_ctor suffix)
        | None => Undefined
        end
  | Some c =>
      fst r = Thrown (Direct3dException_ctor (literal_of c ++ to_string (status_of world c)))
  end /\
  (first_failure world <> None ->
   NothingBound (snd r) /\
   count is_binding (calls (snd r)) = 0%nat /\
   count is_frame_call (calls (snd r)) = 0%nat /\
   count is_sdl_quit (calls (snd r)) = 0%nat).
Proof.
  destruct world as [i e w q n hr1 hr2 hr3 hr4 hr5 hr6 hr7 hr8 hr9 p].
  cbv zeta. unfold_initialization.
  settle_status hr1; [stopped_here |].
  settle_status hr2; [stopped_here |].
  settle_status hr3; [stopped_here |].
  settle_status hr4; [stopped_here |].
  settle_status hr5; [stopped_here |].
  settle_status hr6; [stopped_here |].
  settle_status hr7; [stopped_here |].
  settle_status hr8.
  - cbn [literal_of].
    destruct (literal_plus
                "Failed to create 2D texture for depth stencil buffer. Error Code: " hr8);
      stopped_here.
  - settle_status hr9; [stopped_here |].
    split; [reflexivity |]. intro H. now contradiction H.
Qed.

Lemma first_failure_none (world : World) :
  first_failure world = None <-> direct3d_ready world.
Proof.
  destruct world as [i e w q n hr1 hr2 hr3 hr4 hr5 hr6 hr7 hr8 hr9 p].
  unfold direct3d_ready, first_failure, checks. cbn [find status_of
    D3D11CreateDevice_result As_IDXGIDevice_result GetParent_IDXGIAdapter_result
    GetParent_IDXGIFactory_result CreateSwapChain_result GetBuffer_result
    CreateRenderTargetView_result CreateTexture2D_result CreateDepthStencilView_result].
  settle_status hr1; [split; [discriminate | tauto] |].
  settle_status hr2; [split; [discriminate | tauto] |].
  settle_status hr3; [split; [discriminate | tauto] |].
  settle_status hr4; [split; [discriminate | tauto] |].
  settle_status hr5; [split; [discriminate | tauto] |].
  settle_status hr6; [split; [discriminate | tauto] |].
  settle_status hr7; [split; [discriminate | tauto] |].
  settle_status hr8; [split; [discriminate | tauto] |].
  settle_status hr9; [split; [discriminate | tauto] |].
  tauto.
Qed.

Lemma first_failure_status (world : World) (c : Check) :
  first_failure world = Some c -> status_of world c <> S_OK.
Proof.
  unfold first_failure. intro H. apply find_some in H. destruct H as [_ H].
  now apply neq_true_ne.
Qed.

(** ** Runs that stop before Direct3D *)

Lemma run_sdl_failure (world : World) :
  SDL_Init_result world <> 0 ->
  run world =
  (Normal 1,
   record_calls
     [ Call_SDL_Init 0x4030;
       Call_SDL_GetError;
       Call_SDL_Log ("Unable to initialize SDL: " ++ SDL_GetError_text world) ]
     startup).
Proof.
  intro H. unfold run, main.
  step. rewrite (neq_true _ _ H).
  step. step. unfold ret. simpl. now rewrite append_empty_r.
Qed.

Lemma run_window_failure (world : World) :
  SDL_Init_result world = 0 ->
  SDL_CreateWindow_result world = None ->
  run world =
  (Normal 1,
   record_calls
     [ Call_SDL_Init 0x4030;
       Call_SDL_Log "SDL initialized...";
       Call_SDL_Log "Initializing main window...";
       Call_SDL_CreateWindow "Rotating Cube" SDL_WINDOWPOS_CENTERED
         SDL_WINDOWPOS_CENTERED 640 480 0;
       Call_SDL_GetError;
       Call_SDL_Log
         ("Unable to create main application window: " ++ SDL_GetError_text world) ]
     startup).
Proof.
  intros Hinit Hwindow. unfold run, main.
  step. rewrite Hinit. cbn [neq Z.eqb negb].
  step. step. step. rewrite Hwindow.
  step. step. unfold ret. simpl. now rewrite append_empty_r.
Qed.

(** ** Runs in which a Direct3D check fails *)

Lemma nul_free_literal_of (c : Check) : nul_free (literal_of c) = true.
Proof. destruct c; reflexivity. Qed.

(** How [InitializeDirect3d] ends when the check [c] is the first to fail. *)
Lemma InitializeDirect3d_failure (world : World) (h : HWND) (window : SDL_Window)
    (c : Check) :
  first_failure world = Some c ->
  let r := InitializeDirect3d world h (entering_direct3d window) in
  ((exists msg,
      fst r = Thrown (Direct3dException_ctor msg) /\
      nul_free msg = true /\
      (c <> CheckCreateDepthTexture ->
       msg = (literal_of c ++ to_string (status_of world c))%string) /\
      (c = CheckCreateDepthTexture ->
       literal_plus (literal_of c) (CreateTexture2D_result world) = Some msg)) \/
   (fst r = Undefined /\ texture_offset_undefined world)) /\
  NothingBound (snd r) /\
  count is_binding (calls (snd r)) = 0%nat /\
  count is_frame_call (calls (snd r)) = 0%nat /\
  count is_sdl_quit (calls (snd r)) = 0%nat.
Proof.
  intros Hfirst r.
  destruct (InitializeDirect3d_by_first_failure world h window) as [Hout Hstate].
  fold r in Hout, Hstate. rewrite Hfirst in Hout.
  split; [| apply Hstate; rewrite Hfirst; discriminate].
  assert (Hsays : forall msg,
             fst r = Thrown (Direct3dException_ctor msg) ->
             msg = (literal_of c ++ to_string (status_of world c))%string ->
             c <> CheckCreateDepthTexture ->
             exists msg,
               fst r = Thrown (Direct3dException_ctor msg) /\
               nul_free msg = true /\
               (c <> CheckCreateDepthTexture ->
                msg = (literal_of c ++ to_string (status_of world c))%string) /\
               (c = CheckCreateDepthTexture ->
                literal_plus (literal_of c) (CreateTexture2D_result world) = Some msg)).
  { intros msg Hthrown -> Hc. eexists. split; [exact Hthrown |]. split.
    - now rewrite nul_free_append, nul_free_literal_of, nul_free_to_string.
    - split; [reflexivity | contradiction]. }
  destruct c; try (left; eapply Hsays; [exact Hout | reflexivity | discriminate]).
  destruct (literal_plus (literal_of CheckCreateDepthTexture)
              (CreateTexture2D_result world)) as [suffix |] eqn:Hliteral.
  - left. exists suffix. split; [exact Hout |]. split.
    + eapply literal_plus_nul_free; [| exact Hliteral]. reflexivity.
    + split; [intro H; now contradiction H | reflexivity].
  - right. split; [exact Hout |]. split; assumption.
Qed.

Lemma count_record_calls (p : Call -> bool) (more : list Call) (m : Machine) :
  count p (calls (record_calls more m)) = (count p (calls m) + count p more)%nat.
Proof. apply count_app. Qed.

(** With SDL and the window up and [c] the first failing check, the run is
    the initialization up to that check followed, unless the behaviour is
    undefined, by the handler's one log line. *)
Lemma run_failure (world : World) (window : SDL_Window) (c : Check) :
  platform_ready world window ->
  first_failure world = Some c ->
  ((exists msg,
      exit_status world = Normal 1 /\
      last (logged (trace world)) ""%string = error_line msg /\
      (c <> CheckCreateDepthTexture ->
       msg = (literal_of c ++ to_string (status_of world c))%string) /\
      (c = CheckCreateDepthTexture ->
       literal_plus (literal_of c) (CreateTexture2D_result world) = Some msg)) \/
   (exit_status world = Undefined /\ texture_offset_undefined world)) /\
  NothingBound (snd (run world)) /\
  count is_binding (trace world) = 0%nat /\
  count is_frame_call (trace world) = 0%nat /\
  count is_sdl_quit (trace world) = 0%nat.
Proof.
  intros Hplatform Hfirst.
  destruct (InitializeDirect3d_failure world (handle_passed world) window c Hfirst)
    as (Hout & Hbound & Hbinding & Hframe & Hquit).
  destruct (InitializeDirect3d world (handle_passed world) (entering_direct3d window))
    as [o m'] eqn:Hrun.
  cbn [fst snd] in *.
  destruct Hout as [(msg & -> & Hfree & Hmsg & Htexture) | [-> Hundefined]].
  - assert (H := run_catches world window msg m' Hplatform Hrun Hfree).
    unfold exit_status, trace. rewrite H. cbn [fst snd].
    rewrite !count_record_calls, Hbinding, Hframe, Hquit.
    split; [| repeat split; solve [reflexivity | apply Hbound]].
    left. exists msg. split; [reflexivity |]. split; [| split; assumption].
    cbn [calls record_calls]. rewrite logged_app. apply last_last.
  - assert (H := run_undefined world window m' Hplatform Hrun).
    unfold exit_status, trace. rewrite H. cbn [fst snd].
    split; [| repeat split; solve [assumption | apply Hbound]].
    right. split; [reflexivity | assumption].
Qed.

(** The exit status, read off the answers of the world. *)
Lemma exit_status_by_world (world : World) :
  exit_status world =
  if neq (SDL_Init_result world) 0 then Normal 1
  else
    match SDL_CreateWindow_result world with
    | None => Normal 1
    | Some _ =>
        match first_failure world with
        | None => if existsb is_quit (polls world) then Normal 0 else Unfinished
        | Some CheckCreateDepthTexture =>
            match literal_plus (literal_of CheckCreateDepthTexture)
                    (CreateTexture2D_result world) with
            | Some _ => Normal 1
            | None => Undefined
            end
        | Some _ => Normal 1
        end
    end.
Proof.
  destruct (neq (SDL_Init_result world) 0) eqn:Hinit.
  { apply neq_true_ne in Hinit. unfold exit_status.
    now rewrite (run_sdl_failure world Hinit). }
  apply neq_false_eq in Hinit.
  destruct (SDL_CreateWindow_result world) as [window |] eqn:Hwindow.
  2: { unfold exit_status. now rewrite (run_window_failure world Hinit Hwindow). }
  assert (Hplatform : platform_ready world window) by (split; assumption).
  destruct (first_failure world) as [c |] eqn:Hfirst.
  - destruct (run_failure world window c Hplatform Hfirst) as [Hout _].
    destruct Hout as [(msg & Hexit & _ & _ & Htexture) | [Hexit [Hcheck Hliteral]]].
    + rewrite Hexit. destruct c; try reflexivity.
      now rewrite (Htexture eq_refl).
    + rewrite Hfirst in Hcheck. injection Hcheck as ->.
      now rewrite Hexit, Hliteral.
  - apply first_failure_none in Hfirst.
    destruct (exit_status_classification world window Hplatform)
      as [(_ & Hq & He) | [(_ & Hq & He) | [(Hnot & _) | (Hnot & _)]]];
      try contradiction; now rewrite Hq, He.
Qed.

(** ** Further properties *)

(** X1.  When [SDL_Init] answers anything but 0, the process asks SDL for the
    error text, logs it behind "Unable to initialize SDL: " and returns 1.
    These three calls are the whole run: no window is created, Direct3D is
    not touched, and [SDL_Quit] is not called. *)
Theorem sdl_init_failure_run (world : World) :
  SDL_Init_result world <> 0 ->
  exit_status world = Normal 1 /\
  trace world =
    [ Call_SDL_Init 0x4030;
      Call_SDL_GetError;
      Call_SDL_Log ("Unable to initialize SDL: " ++ SDL_GetError_text world) ] /\
  count is_create_window (trace world) = 0%nat /\
  count is_direct3d (trace world) = 0%nat /\
  count is_sdl_quit (trace world) = 0%nat.
Proof.
  intro H. unfold exit_status, trace. rewrite (run_sdl_failure world H).
  repeat split; reflexivity.
Qed.

Lemma sdl_init_failure_run_witness :
  exit_status (without_platform (-1) "No available video device") = Normal 1 /\
  logged (trace (without_platform (-1) "No available video device")) =
    [ "Unable to initialize SDL: No available video device"%string ].
Proof.
  destruct (sdl_init_failure_run (without_platform (-1) "No available video device"))
    as (Hexit & Htrace & _).
  - discriminate.
  - split; [exact Hexit |]. rewrite Htrace. reflexivity.
Defined.

(** X2.  When SDL starts but [SDL_CreateWindow] returns null, the process
    logs SDL's error text behind "Unable to create main application window: "
    and returns 1 straight away: the window-handle query and Direct3D are
    never reached, and [SDL_Quit] is not called although SDL was
    initialized. *)
Theorem window_creation_failure_run (world : World) :
  SDL_Init_result world = 0 ->
  SDL_CreateWindow_result world = None ->
  exit_status world = Normal 1 /\
  trace world =
    [ Call_SDL_Init 0x4030;
      Call_SDL_Log "SDL initialized...";
      Call_SDL_Log "Initializing main window...";
      Call_SDL_CreateWindow "Rotating Cube" SDL_WINDOWPOS_CENTERED
        SDL_WINDOWPOS_CENTERED 640 480 0;
      Call_SDL_GetError;
      Call_SDL_Log
        ("Unable to create main application window: " ++ SDL_GetError_text world) ] /\
  count is_direct3d (trace world) = 0%nat /\
  count is_sdl_quit (trace world) = 0%nat.
Proof.
  intros Hinit Hwindow. unfold exit_status, trace.
  rewrite (run_window_failure world Hinit Hwindow).
  repeat split; reflexivity.
Qed.

Lemma window_creation_failure_run_witness :
  exit_status (without_platform 0 "Out of memory") = Normal 1 /\
  last (logged (trace (without_platform 0 "Out of memory"))) ""%string =
    "Unable to create main application window: Out of memory"%string.
Proof.
  destruct (window_creation_failure_run (without_platform 0 "Out of memory"))
    as (Hexit & Htrace & _).
  - reflexivity.
  - reflexivity.
  - split; [exact Hexit |]. rewrite Htrace. reflexivity.
Defined.

Lemma count_frames (n : nat) :
  count is_poll (frames n) = n /\ count is_present (frames n) = n /\
  count is_clear_render_target (frames n) = n /\
  count is_clear_depth_stencil (frames n) = n /\
  count is_sdl_quit (frames n) = 0%nat.
Proof.
  induction n as [| n (IH1 & IH2 & IH3 & IH4 & IH5)]; [repeat split |].
  rewrite frames_succ, !count_app, IH1, IH2, IH3, IH4, IH5. repeat split.
Qed.

(** X3.  When start-up succeeds, the loop leaves at the first quit event and
    not before: if the first [k] polls are no quit events and the next one
    is, the process returns 0 after exactly [k + 1] polls, each followed by
    one clear of the render target, one clear of the depth-stencil buffer and
    one present; whatever is queued behind the quit event is never polled,
    and [SDL_Quit] is called once, last. *)
Theorem quit_after_polls (world : World) (window : SDL_Window)
    (before after : list (option SDL_Event)) (answer : option SDL_Event) :
  platform_ready world window ->
  direct3d_ready world ->
  polls world = before ++ answer :: after ->
  forallb (fun a => negb (is_quit a)) before = true ->
  is_quit answer = true ->
  exit_status world = Normal 0 /\
  trace world =
    startup_calls window (handle_passed world)
      ++ frames (S (length before)) ++ [Call_SDL_Quit] /\
  count is_poll (trace world) = S (length before) /\
  count is_clear_render_target (trace world) = S (length before) /\
  count is_clear_depth_stencil (trace world) = S (length before) /\
  count is_present (trace world) = S (length before) /\
  count is_sdl_quit (trace world) = 1%nat.
Proof.
  intros Hplatform Hd3d Hpolls Hbefore Hquit.
  unfold exit_status, trace.
  rewrite (run_quits world window before after answer Hplatform Hd3d Hpolls Hbefore Hquit).
  cbn [fst snd calls record_calls initialized].
  destruct (count_frames (S (length before))) as (H1 & H2 & H3 & H4 & H5).
  rewrite !count_app, H1, H2, H3, H4, H5.
  split; [reflexivity |]. split; [reflexivity |].
  repeat split; cbn; lia.
Qed.

Lemma quit_after_polls_witness :
  let world :=
    sunny true [None; Some {| type := 0x300 |}; Some {| type := SDL_QUIT |};
                Some {| type := 0x300 |}] in
  exit_status world = Normal 0 /\
  count is_poll (trace world) = 3%nat /\
  count is_present (trace world) = 3%nat.
Proof.
  cbv zeta.
  destruct (quit_after_polls
              (sunny true [None; Some {| type := 0x300 |}; Some {| type := SDL_QUIT |};
                           Some {| type := 0x300 |}])
              (Window 1) [None; Some {| type := 0x300 |}] [Some {| type := 0x300 |}]
              (Some {| type := SDL_QUIT |}))
    as (Hexit & _ & Hpoll & _ & _ & Hpresent & _).
  - split; reflexivity.
  - repeat split; reflexivity.
  - reflexivity.
  - reflexivity.
  - reflexivity.
  - repeat split; assumption.
Defined.

(** X4.  When start-up succeeds and no quit event arrives, the process does
    not leave the loop: for every finite run of polls that are empty or carry
    other events it is still running afterwards, has rendered exactly one
    frame per poll, and has not called [SDL_Quit].  Events other than
    [SDL_QUIT] change nothing in what the loop does. *)
Theorem no_quit_keeps_rendering (world : World) (window : SDL_Window) :
  platform_ready world window ->
  direct3d_ready world ->
  forallb (fun a => negb (is_quit a)) (polls world) = true ->
  exit_status world = Unfinished /\
  trace world =
    startup_calls window (handle_passed world) ++ frames (length (polls world)) /\
  count is_present (trace world) = length (polls world) /\
  count is_sdl_quit (trace world) = 0%nat.
Proof.
  intros Hplatform Hd3d Hpolls.
  unfold exit_status, trace.
  rewrite (run_unfinished world window Hplatform Hd3d Hpolls).
  cbn [fst snd calls record_calls initialized].
  destruct (count_frames (length (polls world))) as (_ & H2 & _ & _ & H5).
  rewrite !count_app, H2, H5.
  repeat split.
Qed.

Lemma no_quit_keeps_rendering_witness :
  exit_status (sunny true [None; Some {| type := 0x300 |}; None]) = Unfinished /\
  count is_present (trace (sunny true [None; Some {| type := 0x300 |}; None])) = 3%nat.
Proof.
  destruct (no_quit_keeps_rendering
              (sunny true [None; Some {| type := 0x300 |}; None]) (Window 1))
    as (Hexit & _ & Hpresent & _).
  - split; reflexivity.
  - repeat split; reflexivity.
  - reflexivity.
  - split; assumption.
Defined.

(** X5.  The process returns 0 in exactly one situation: SDL starts, the
    window is created, all nine checked Direct3D calls answer [S_OK], and the
    event queue delivers a quit event. *)
Theorem exit_zero_iff (world : World) :
  exit_status world = Normal 0 <->
  SDL_Init_result world = 0 /\
  SDL_CreateWindow_result world <> None /\
  direct3d_ready world /\
  existsb is_quit (polls world) = true.
Proof.
  rewrite exit_status_by_world, <- first_failure_none.
  destruct (neq (SDL_Init_result world) 0) eqn:Hinit.
  { apply neq_true_ne in Hinit. split; [discriminate | intros (H & _); contradiction]. }
  apply neq_false_eq in Hinit.
  destruct (SDL_CreateWindow_result world) as [window |].
  2: { split; [discriminate | intros (_ & H & _); now contradiction H]. }
  destruct (first_failure world) as [c |].
  - split; [| intros (_ & _ & H & _); discriminate].
    destruct c; try discriminate.
    destruct (literal_plus _ _); discriminate.
  - destruct (existsb is_quit (polls world)).
    + split; [intros _; repeat split; solve [assumption | discriminate] | reflexivity].
    + split; [discriminate | intros (_ & _ & _ & H); discriminate].
Qed.

Lemma exit_zero_iff_witness :
  exit_status (sunny false [None; Some {| type := SDL_QUIT |}]) = Normal 0.
Proof.
  apply exit_zero_iff. split; [reflexivity |]. split; [discriminate |].
  split; [repeat split; reflexivity | reflexivity].
Defined.





(** X8.  A run that returns 1 has never bound a view to the output merger,
    never set a viewport, never polled, cleared or presented, and has not
    called [SDL_Quit]: every error exit leaves SDL without the shutdown call
    that the clean exit makes. *)
Theorem error_exit_skips_rendering_and_shutdown (world : World) :
  exit_status world = Normal 1 ->
  NothingBound (snd (run world)) /\
  count is_binding (trace world) = 0%nat /\
  count is_frame_call (trace world) = 0%nat /\
  count is_sdl_quit (trace world) = 0%nat.
Proof.
  intro Hexit.
  destruct (Z.eq_dec (SDL_Init_result world) 0) as [Hinit | Hinit].
  2: { unfold trace. rewrite (run_sdl_failure world Hinit). repeat split. }
  destruct (SDL_CreateWindow_result world) as [window |] eqn:Hwindow.
  2: { unfold trace. rewrite (run_window_failure world Hinit Hwindow). repeat split. }
  destruct (first_failure world) as [c |] eqn:Hfirst.
  - apply (run_failure world window c); [split; assumption | assumption].
  - exfalso. rewrite exit_status_by_world, Hwindow, Hfirst, Hinit in Hexit.
    cbn in Hexit. destruct (existsb is_quit (polls world)); discriminate.
Qed.

Lemma error_exit_skips_rendering_and_shutdown_witness :
  count is_sdl_quit (trace (failing_at CheckGetBuffer E_OUTOFMEMORY)) = 0%nat /\
  count is_frame_call (trace (failing_at CheckGetBuffer E_OUTOFMEMORY)) = 0%nat.
Proof.
  destruct (error_exit_skips_rendering_and_shutdown
              (failing_at CheckGetBuffer E_OUTOFMEMORY))
    as (_ & _ & Hframe & Hquit).
  - reflexivity.
  - split; assumption.
Defined.

(** X9.  Called from [main], [InitializeDirect3d] returns normally exactly
    when all nine checked calls answer [S_OK]; it then leaves all five global
    handles set, the back-buffer view and the depth-stencil view bound to the
    output merger, and the 800 by 600 viewport set, with the native calls of
    the four initializers made in their fixed order. *)
Theorem InitializeDirect3d_returns_iff (world : World) (h : HWND) (window : SDL_Window) :
  let r := InitializeDirect3d world h (entering_direct3d window) in
  (fst r = Normal tt <-> direct3d_ready world) /\
  (direct3d_ready world -> snd r = initialized window h).
Proof.
  intro r.
  destruct (InitializeDirect3d_by_first_failure world h window) as [Hout _].
  fold r in Hout. rewrite <- first_failure_none.
  destruct (first_failure world) as [c |].
  - split; [| discriminate]. split; [| discriminate].
    intro Hnormal. rewrite Hnormal in Hout.
    destruct c; try discriminate Hout.
    destruct (literal_plus _ _); discriminate Hout.
  - rewrite Hout. split; [split; reflexivity | reflexivity].
Qed.

Lemma InitializeDirect3d_returns_iff_witness :
  snd (InitializeDirect3d (sunny true []) (WindowHandle 4096)
         (entering_direct3d (Window 1))) =
  initialized (Window 1) (WindowHandle 4096).
Proof.
  apply (InitializeDirect3d_returns_iff (sunny true []) (WindowHandle 4096) (Window 1)).
  repeat split; reflexivity.
Defined.

(** X10.  For each of the eight checks written with [std::to_string] (all but
    the one on the depth texture): when it is the first check to fail, the
    exception's message is that check's own literal followed by the decimal
    rendering of the status it saw, the handler in [main] logs exactly that
    message behind its prefix as the last line of the run, and the process
    returns 1. *)
Theorem check_failure_message (world : World) (window : SDL_Window) (c : Check) :
  platform_ready world window ->
  first_failure world = Some c ->
  c <> CheckCreateDepthTexture ->
  fst (InitializeDirect3d world (handle_passed world) (entering_direct3d window)) =
    Thrown (Direct3dException_ctor (literal_of c ++ to_string (status_of world c))) /\
  exit_status world = Normal 1 /\
  last (logged (trace world)) ""%string =
    error_line (literal_of c ++ to_string (status_of world c)).
Proof.
  intros Hplatform Hfirst Hc. split.
  - destruct (InitializeDirect3d_by_first_failure world (handle_passed world) window)
      as [Hout _].
    rewrite Hfirst in Hout. destruct c; try exact Hout. now contradiction Hc.
  - destruct (run_failure world window c Hplatform Hfirst) as [Hout _].
    destruct Hout as [(msg & Hexit & Hlast & Hmsg & _) | [_ [Htexture _]]].
    + rewrite <- (Hmsg Hc). split; assumption.
    + rewrite Hfirst in Htexture. injection Htexture as ->. now contradiction Hc.
Qed.

Lemma check_failure_message_witness :
  last (logged (trace (failing_at CheckGetBuffer DXGI_ERROR_DEVICE_HUNG))) ""%string =
    "An error occured initialization Direct3D: Failed to retrieve swapchain back buffer. Error Code-2005270524"%string.
Proof.
  destruct (check_failure_message (failing_at CheckGetBuffer DXGI_ERROR_DEVICE_HUNG)
              (Window 1) CheckGetBuffer)
    as (_ & _ & Hlast).
  - split; reflexivity.
  - reflexivity.
  - discriminate.
  - rewrite Hlast. reflexivity.
Defined.

Lemma length_drop (n : nat) (s : string) :
  String.length (drop n s) = (String.length s - n)%nat.
Proof.
  revert s. induction n as [| n IH]; intros [| c s]; simpl; auto using Nat.sub_0_r.
Qed.

Lemma length_append (a b : string) :
  String.length (a ++ b) = (String.length a + String.length b)%nat.
Proof. induction a as [| c a IH]; simpl; [reflexivity | now rewrite IH]. Qed.

(** X11.  The check on the depth texture, when it is the first to fail with
    status [hr]: for [hr] from 1 to 66 the logged message is the check's
    66-character literal with its first [hr] characters cut off (empty for
    66) and the process returns 1; for a negative [hr], which every COM
    failure code is, and for [hr] above 66, the behaviour is undefined.  In
    no case is the message the literal followed by the status. *)
Theorem depth_texture_check_offsets (world : World) (window : SDL_Window) :
  platform_ready world window ->
  first_failure world = Some CheckCreateDepthTexture ->
  let hr := CreateTexture2D_result world in
  let literal := literal_of CheckCreateDepthTexture in
  String.length literal = 66%nat /\
  (0 < hr <= 66 ->
   exit_status world = Normal 1 /\
   last (logged (trace world)) ""%string = error_line (drop (Z.to_nat hr) literal)) /\
  (hr < 0 \/ 66 < hr -> exit_status world = Undefined) /\
  fst (InitializeDirect3d world (handle_passed world) (entering_direct3d window)) <>
    Thrown (Direct3dException_ctor (literal ++ to_string hr)).
Proof.
  intros Hplatform Hfirst hr literal.
  assert (Hplus : literal_plus literal hr =
                  if (0 <=? hr) && (hr <=? 66)
                  then Some (drop (Z.to_nat hr) literal) else None) by reflexivity.
  assert (Hne : hr <> 0) by apply (first_failure_status world _ Hfirst).
  destruct (run_failure world window _ Hplatform Hfirst) as [Hout _].
  split; [reflexivity |]. split; [| split].
  - intro Hrange.
    destruct Hout as [(msg & Hexit & Hlast & _ & Hmsg) | [_ [_ Hnone]]].
    + specialize (Hmsg eq_refl). fold hr literal in Hmsg. rewrite Hplus in Hmsg.
      destruct ((0 <=? hr) && (hr <=? 66)); [| discriminate].
      injection Hmsg as <-. split; assumption.
    + fold hr literal in Hnone. rewrite Hplus in Hnone.
      replace ((0 <=? hr) && (hr <=? 66)) with true in Hnone; [discriminate |].
      symmetry. apply andb_true_iff. split; apply Z.leb_le; lia.
  - intro Hrange.
    destruct Hout as [(msg & _ & _ & _ & Hmsg) | [Hexit _]]; [| exact Hexit].
    specialize (Hmsg eq_refl). fold hr literal in Hmsg. rewrite Hplus in Hmsg.
    replace ((0 <=? hr) && (hr <=? 66)) with false in Hmsg; [discriminate |].
    symmetry. apply andb_false_iff.
    destruct Hrange; [left | right]; apply Z.leb_gt; lia.
  - destruct (InitializeDirect3d_by_first_failure world (handle_passed world) window)
      as [Hrun _].
    rewrite Hfirst in Hrun. fold hr literal in Hrun. rewrite Hrun, Hplus.
    destruct ((0 <=? hr) && (hr <=? 66)) eqn:Hrange; [| discriminate].
    intro H.
    apply (f_equal (fun o => match o with
                             | Thrown ex => String.length (m_errorMessage ex)
                             | _ => 0%nat
                             end)) in H.
    cbv beta iota in H. unfold Direct3dException_ctor in H. cbn [m_errorMessage] in H.
    rewrite length_drop, length_append in H.
    apply andb_true_iff in Hrange. destruct Hrange as [Hlo Hhi].
    apply Z.leb_le in Hlo, Hhi.
    change (String.length literal) with 66%nat in H. lia.
Qed.

Lemma depth_texture_check_offsets_witness :
  last (logged (trace (failing_at CheckCreateDepthTexture 62))) ""%string =
    "An error occured initialization Direct3D: de: "%string /\
  exit_status (failing_at CheckCreateDepthTexture (HRESULT_of_bits 0x80070057)) = Undefined.
Proof.
  split.
  - destruct (depth_texture_check_offsets (failing_at CheckCreateDepthTexture 62)
                (Window 1)) as (_ & Hinside & _).
    + split; reflexivity.
    + reflexivity.
    + destruct Hinside as [_ Hlast]; [cbn; lia |]. rewrite Hlast. reflexivity.
  - destruct (depth_texture_check_offsets
                (failing_at CheckCreateDepthTexture (HRESULT_of_bits 0x80070057))
                (Window 1)) as (_ & _ & Houtside & _).
    + split; reflexivity.
    + reflexivity.
    + apply Houtside. left. vm_compute. reflexivity.
Defined.

(** ** Telling the checks apart by their messages *)

Lemma to_string_inj (a b : Z) : to_string a = to_string b -> a = b.
Proof.
  unfold to_string. intro H.
  apply DecimalZ.to_int_inj.
  assert (Hparse : forall z,
             NilZero.int_of_string (NilZero.string_of_int (Z.to_int z)) =
             Some (Z.to_int z)).
  { intro z. apply NilZero.isi.
    - destruct z; simpl; try discriminate.
      intro Hz. injection Hz as Hz. now apply DecimalPos.Unsigned.to_uint_nonnil in Hz.
    - destruct z; simpl; try discriminate.
      intro Hz. injection Hz as Hz. now apply DecimalPos.Unsigned.to_uint_nonnil in Hz. }
  assert (Some (Z.to_int a) = Some (Z.to_int b)) as Hsome
      by (rewrite <- !Hparse, H; reflexivity).
  now injection Hsome.
Qed.

Lemma append_inv_head (a b c : string) : (a ++ b)%string = (a ++ c)%string -> b = c.
Proof.
  induction a as [| x a IH]; simpl; [trivial |].
  intro H. injection H as H. now apply IH.
Qed.

Lemma diverge_append (a b x y : string) :
  diverge a b = true -> (a ++ x)%string <> (b ++ y)%string.
Proof.
  revert b. induction a as [| c a IH]; intros [| d b]; simpl; try discriminate.
  destruct (Ascii.eqb_spec c d) as [-> | Hne].
  - intros Hdiv H. injection H as H. now apply (IH b).
  - intros _ H. injection H as H _. contradiction.
Qed.

Lemma literals_diverge (c1 c2 : Check) :
  c1 <> CheckCreateDepthTexture ->
  c2 <> CheckCreateDepthTexture ->
  c1 <> c2 ->
  diverge (literal_of c1) (literal_of c2) = true.
Proof.
  destruct c1, c2; intros H1 H2 H; try reflexivity;
    solve [now contradiction H | now contradiction H1 | now contradiction H2].
Qed.

Lemma Check_eq_dec (c1 c2 : Check) : {c1 = c2} + {c1 <> c2}.
Proof. decide equality. Qed.

(** X12.  The message of a failed initialization tells which check failed
    and with which status: if two runs, in whatever worlds, both fail at a
    check other than the depth-texture one and throw the same message, then
    it was the same check and it saw the same status. *)
Theorem message_identifies_check (w1 w2 : World) (h1 h2 : HWND)
    (window1 window2 : SDL_Window) (c1 c2 : Check) (ex : Direct3dException) :
  first_failure w1 = Some c1 ->
  first_failure w2 = Some c2 ->
  c1 <> CheckCreateDepthTexture ->
  c2 <> CheckCreateDepthTexture ->
  fst (InitializeDirect3d w1 h1 (entering_direct3d window1)) = Thrown ex ->
  fst (InitializeDirect3d w2 h2 (entering_direct3d window2)) = Thrown ex ->
  c1 = c2 /\ status_of w1 c1 = status_of w2 c2.
Proof.
  intros Hf1 Hf2 Hc1 Hc2 Hrun1 Hrun2.
  assert (Hsays : forall w h window c,
             first_failure w = Some c -> c <> CheckCreateDepthTexture ->
             fst (InitializeDirect3d w h (entering_direct3d window)) =
             Thrown (Direct3dException_ctor (literal_of c ++ to_string (status_of w c)))).
  { intros w h window c Hf Hc.
    destruct (InitializeDirect3d_by_first_failure w h window) as [Hout _].
    rewrite Hf in Hout. destruct c; try exact Hout. now contradiction Hc. }
  rewrite (Hsays _ _ _ _ Hf1 Hc1) in Hrun1.
  rewrite (Hsays _ _ _ _ Hf2 Hc2) in Hrun2.
  rewrite <- Hrun2 in Hrun1. injection Hrun1 as Hmsg.
  destruct (Check_eq_dec c1 c2) as [<- | Hne].
  - split; [reflexivity |]. apply to_string_inj. now apply append_inv_head in Hmsg.
  - exfalso. revert Hmsg. apply diverge_append. now apply literals_diverge.
Qed.

Lemma message_identifies_check_witness :
  status_of (failing_at CheckGetFactory E_OUTOFMEMORY) CheckGetFactory =
  status_of (failing_at CheckGetFactory (HRESULT_of_bits 0x8007000E)) CheckGetFactory.
Proof.
  apply (message_identifies_check
           (failing_at CheckGetFactory E_OUTOFMEMORY)
           (failing_at CheckGetFactory (HRESULT_of_bits 0x8007000E))
           (WindowHandle 1) IndeterminateHandle (Window 1) (Window 2)
           CheckGetFactory CheckGetFactory
           (Direct3dException_ctor
              "Failed to retrieve parent IDXGIFactory from IDXGIFactory. Error code: -2147024882"));
    try reflexivity; discriminate.
Defined.

(** X13.  When SDL, the window and Direct3D all succeed and the window-handle
    query succeeds too, the one swap chain the run creates is created for
    exactly the native handle SDL reported for the window, windowed, with a
    single back buffer whose size is left to the window (width and height
    0). *)
Theorem swap_chain_targets_window (world : World) (window : SDL_Window) :
  platform_ready world window ->
  direct3d_ready world ->
  SDL_GetWindowWMInfo_result world = true ->
  exists sd,
    filter (fun c => match c with Call_CreateSwapChain _ _ _ => true | _ => false end)
      (trace world) = [Call_CreateSwapChain TheFactory (Some TheDevice) sd] /\
    OutputWindow sd = WindowHandle (native_window world) /\
    Windowed sd = true /\
    BufferCount sd = 1 /\
    BufferWidth (BufferDesc sd) = 0 /\
    BufferHeight (BufferDesc sd) = 0.
Proof.
  intros Hplatform Hd3d Hquery.
  exists (swap_chain_desc (WindowHandle (native_window world))).
  split; [| repeat split].
  assert (Hframes : forall n,
             filter (fun c => match c with
                              | Call_CreateSwapChain _ _ _ => true
                              | _ => false
                              end) (frames n) = []).
  { induction n as [| n IH]; [reflexivity |].
    rewrite frames_succ, filter_app, IH. reflexivity. }
  destruct (run_ready_cases world window Hplatform Hd3d) as [n [Hrun | Hrun]];
    unfold trace; rewrite Hrun; cbn [snd calls record_calls initialized];
    rewrite !filter_app, Hframes; unfold handle_passed; rewrite Hquery; reflexivity.
Qed.

Lemma swap_chain_targets_window_witness :
  exists sd,
    In (Call_CreateSwapChain TheFactory (Some TheDevice) sd) (trace (sunny true [None])) /\
    OutputWindow sd = WindowHandle 4096.
Proof.
  destruct (swap_chain_targets_window (sunny true [None]) (Window 1))
    as (sd & Hfilter & Hwindow & _).
  - split; reflexivity.
  - repeat split; reflexivity.
  - reflexivity.
  - exists sd. split; [| exact Hwindow].
    eapply (proj1 (filter_In _ _ _)). rewrite Hfilter. now left.
Defined.

(** X14.  [what()] hands out a C string: when the stored message has a
    terminator inside, a reader of [what()], such as the [%s] of the log
    call in [main], sees only the part before the first terminator. *)
Theorem what_stops_at_embedded_terminator (before after : string) :
  nul_free before = true ->
  read_cstr (what (Direct3dException_ctor (before ++ String NUL after))) = before.
Proof.
  intro H. unfold what, c_str. cbn [m_errorMessage Direct3dException_ctor].
  induction before as [| c before IH]; [reflexivity |].
  simpl in H |- *. apply andb_prop in H. destruct H as [Hc Hrest].
  destruct (Ascii.eqb c NUL); [discriminate |]. now rewrite IH.
Qed.

Lemma what_stops_at_embedded_terminator_witness :
  read_cstr (what (Direct3dException_ctor ("lost" ++ String NUL "device"))) = "lost"%string.
Proof.
  apply (what_stops_at_embedded_terminator "lost" "device"). reflexivity.
Defined.

(** X15.  Nothing but the order of the calls in [InitializeDirect3d] protects
    the initializers and the frame loop: entered while the global they go
    through is still null, each of them has undefined behaviour at its first
    use of that global, before any Direct3D call is made.  The swap-chain
    initializer has logged its line by then and a frame has polled its
    event; the other two have done nothing. *)
Theorem initializers_need_their_globals :
  (forall world h m,
     direct3dDevice m = None ->
     InitializeSwapChain world h m =
       (Undefined, record_calls [Call_SDL_Log "Initializing Direct3D swapchain..."] m)) /\
  (forall world m,
     direct3dSwapChain m = None ->
     InitializeBackBufferAndDepthStencilView world m = (Undefined, m)) /\
  (forall m,
     direct3dDeviceContext m = None ->
     InitializeViewport m = (Undefined, m)) /\
  (forall quit answer m,
     direct3dDeviceContext m = None ->
     frame quit answer m = (Undefined, record_calls [Call_SDL_PollEvent] m)).
Proof.
  split; [| split; [| split]].
  - intros world h m H.
    unfold InitializeSwapChain, SDL_Log, bind, emit at 1, arrow.
    cbn [direct3dDevice record_calls]. now rewrite H.
  - intros world m H.
    unfold InitializeBackBufferAndDepthStencilView, bind, arrow. now rewrite H.
  - intros m H. unfold InitializeViewport, bind, arrow. now rewrite H.
  - intros quit answer m H.
    unfold frame, SDL_PollEvent, bind, emit, ret, arrow.
    cbn [direct3dDeviceContext record_calls]. now rewrite H.
Qed.

Lemma initializers_need_their_globals_witness :
  fst (InitializeSwapChain (sunny true []) (WindowHandle 4096) startup) = Undefined /\
  fst (frame false None startup) = Undefined.
Proof.
  destruct initializers_need_their_globals as (Hswap & _ & _ & Hframe).
  split.
  - rewrite (Hswap (sunny true []) (WindowHandle 4096) startup); reflexivity.
  - rewrite (Hframe false None startup); reflexivity.
Defined.

(** X16.  Entered with a swap chain and a device, the back-buffer initializer
    makes its four native calls in order (get buffer, create render target
    view, create depth texture, create depth-stencil view) and stops at the
    first whose status is not [S_OK]: the calls made are those up to and
    including the failing one, and the views are not bound to the output
    merger.  Only when all four answer [S_OK] does it bind, in one call, the
    one render target view and the depth-stencil view it has just created. *)
Theorem back_buffer_stops_at_first_failure (world : World) (m : Machine)
    (swapChain device context : ComObject) :
  direct3dSwapChain m = Some swapChain ->
  direct3dDevice m = Some device ->
  direct3dDeviceContext m = Some context ->
  let r := InitializeBackBufferAndDepthStencilView world m in
  let buffer := Call_GetBuffer swapChain 0 IID_ID3D11Texture2D in
  let view := Call_CreateRenderTargetView device (Some BackBufferTexture) in
  let texture := Call_CreateTexture2D device depthStencilDesc in
  let depthView := Call_CreateDepthStencilView device (Some DepthStencilTexture) in
  let bound := om_render_targets (snd r) = om_render_targets m /\
               om_depth_stencil (snd r) = om_depth_stencil m in
  (GetBuffer_result world <> S_OK ->
   fst r = Thrown (Direct3dException_ctor
                     ("Failed to retrieve swapchain back buffer. Error Code"
                        ++ to_string (GetBuffer_result world))) /\
   calls (snd r) = calls m ++ [buffer] /\ bound) /\
  (GetBuffer_result world = S_OK ->
   CreateRenderTargetView_result world <> S_OK ->
   fst r = Thrown (Direct3dException_ctor
                     ("Failed to create render target view. Error Code: "
                        ++ to_string (CreateRenderTargetView_result world))) /\
   calls (snd r) = calls m ++ [buffer; view] /\ bound) /\
  (GetBuffer_result world = S_OK ->
   CreateRenderTargetView_result world = S_OK ->
   CreateTexture2D_result world <> S_OK ->
   fst r <> Normal tt /\
   calls (snd r) = calls m ++ [buffer; view; texture] /\ bound) /\
  (GetBuffer_result world = S_OK ->
   CreateRenderTargetView_result world = S_OK ->
   CreateTexture2D_result world = S_OK ->
   CreateDepthStencilView_result world <> S_OK ->
   fst r = Thrown (Direct3dException_ctor
                     ("Failed to create depth stencil view. Error Code: "
                        ++ to_string (CreateDepthStencilView_result world))) /\
   calls (snd r) = calls m ++ [buffer; view; texture; depthView] /\ bound) /\
  (GetBuffer_result world = S_OK ->
   CreateRenderTargetView_result world = S_OK ->
   CreateTexture2D_result world = S_OK ->
   CreateDepthStencilView_result world = S_OK ->
   fst r = Normal tt /\
   calls (snd r) =
     calls m ++
     [ buffer; view; texture; depthView;
       Call_OMSetRenderTargets context 1 [Some BackBufferView] (Some DepthStencilView) ] /\
   OutputBound (snd r) /\
   mRenderTargetView (snd r) = Some BackBufferView /\
   mDepthStencilView (snd r) = Some DepthStencilView).
Proof.
  intros Hsc Hdevice Hcontext.
  destruct m as [sc dev ctx rtv dsv views depth viewports made].
  cbn in Hsc, Hdevice, Hcontext. subst sc dev ctx.
  destruct world as [i e w q n hr1 hr2 hr3 hr4 hr5 hr6 hr7 hr8 hr9 p].
  cbv zeta.
  cbv [InitializeBackBufferAndDepthStencilView GetBuffer CreateRenderTargetView
       CreateTexture2D CreateDepthStencilView OMSetRenderTargets
       bind emit ret arrow get when throw undefined
       store_mRenderTargetView store_mDepthStencilView bind_output_merger
       GetBuffer_result CreateRenderTargetView_result CreateTexture2D_result
       CreateDepthStencilView_result].
  repeat match goal with |- _ /\ _ => split end; intros; subst;
    repeat match goal with
           | H : _ <> S_OK |- _ => rewrite (neq_true _ _ H)
           end;
    rewrite ?neq_refl; cbn; rewrite <- ?app_assoc; try reflexivity.
  all: try (repeat split; reflexivity).
  destruct (literal_plus _ hr8); cbn; rewrite <- ?app_assoc;
    repeat split; discriminate.
Qed.

Lemma back_buffer_stops_at_first_failure_witness :
  let world := back_buffer_answers S_OK E_OUTOFMEMORY S_OK S_OK in
  calls (snd (InitializeBackBufferAndDepthStencilView world with_swap_chain)) =
    [ Call_GetBuffer TheSwapChain 0 IID_ID3D11Texture2D;
      Call_CreateRenderTargetView TheDevice (Some BackBufferTexture) ] /\
  OutputBound
    (snd (InitializeBackBufferAndDepthStencilView (sunny true []) with_swap_chain)).
Proof.
  cbv zeta. split.
  - destruct (back_buffer_stops_at_first_failure
                (back_buffer_answers S_OK E_OUTOFMEMORY S_OK S_OK) with_swap_chain
                TheSwapChain TheDevice TheImmediateContext eq_refl eq_refl eq_refl)
      as (_ & Hview & _).
    destruct Hview as (_ & Hcalls & _); [reflexivity | vm_compute; discriminate |].
    exact Hcalls.
  - destruct (back_buffer_stops_at_first_failure
                (sunny true []) with_swap_chain
                TheSwapChain TheDevice TheImmediateContext eq_refl eq_refl eq_refl)
      as (_ & _ & _ & _ & Hok).
    destruct Hok as (_ & _ & Hbound & _); try reflexivity. exact Hbound.
Defined.

Ltac kept_here :=
  let H := fresh in
  intro H; injection H as <-;
  (split; [| split]); intro H;
  solve [ split; reflexivity | reflexivity | now contradiction H
        | cbn in H; intuition discriminate ].

(** X17.  A failed initialization rolls nothing back: whatever the earlier
    steps created stays in the globals.  If the first failing check comes
    after device creation, the device and its context are still held; if it
    is one of the four back-buffer checks, the swap chain is held as well;
    and from the depth-texture check on, so is the render target view. *)
Theorem failure_keeps_earlier_handles (world : World) (h : HWND)
    (window : SDL_Window) (c : Check) :
  first_failure world = Some c ->
  let m' := snd (InitializeDirect3d world h (entering_direct3d window)) in
  (c <> CheckCreateDevice ->
   direct3dDevice m' = Some TheDevice /\
   direct3dDeviceContext m' = Some TheImmediateContext) /\
  (In c [ CheckGetBuffer; CheckCreateRenderTargetView; CheckCreateDepthTexture;
          CheckCreateDepthStencilView ] ->
   direct3dSwapChain m' = Some TheSwapChain) /\
  (In c [ CheckCreateDepthTexture; CheckCreateDepthStencilView ] ->
   mRenderTargetView m' = Some BackBufferView).
Proof.
  destruct world as [i e w q n hr1 hr2 hr3 hr4 hr5 hr6 hr7 hr8 hr9 p].
  cbv zeta. unfold_initialization.
  settle_status hr1; [kept_here |].
  settle_status hr2; [kept_here |].
  settle_status hr3; [kept_here |].
  settle_status hr4; [kept_here |].
  settle_status hr5; [kept_here |].
  settle_status hr6; [kept_here |].
  settle_status hr7; [kept_here |].
  settle_status hr8.
  - destruct (literal_plus
                "Failed to create 2D texture for depth stencil buffer. Error Code: " hr8);
      kept_here.
  - settle_status hr9; [kept_here |]. discriminate.
Qed.

Lemma failure_keeps_earlier_handles_witness :
  direct3dSwapChain
    (snd (InitializeDirect3d (failing_at CheckCreateDepthStencilView E_OUTOFMEMORY)
            (WindowHandle 4096) (entering_direct3d (Window 1)))) = Some TheSwapChain.
Proof.
  apply (failure_keeps_earlier_handles
           (failing_at CheckCreateDepthStencilView E_OUTOFMEMORY)
           (WindowHandle 4096) (Window 1) CheckCreateDepthStencilView eq_refl).
  cbn. tauto.
Defined.
